(** * Flight Search MCP server: the normalizer, its formatters and the handlers

    A shallow embedding of [flight_search_mcp.py].

    Modelling conventions, fixed once for the whole development:
    - a JSON document is a [value]; JSON numbers are integers ([Z]), a JSON
      object is an association list in insertion order;
    - a Python [str] is a [string] of 7-bit ASCII characters;
    - a function that may raise returns a [result]; [try]/[except] is a
      [match] on it;
    - [datetime] parsing and printing, the process environment, the clock and
      the HTTP client are collaborators the code calls into: they are taken as
      an interface ([DateTimeLib]) and as a [world];
    - the module-level [logger] only writes to the process log and is left
      out; the [await ctx.<level>(...)] notifications and the HTTP requests of
      a handler are recorded in a trace of [event]s. *)

From Stdlib Require Import ZArith List String Ascii Bool Lia.
From Stdlib Require Import Decimal DecimalString DecimalPos DecimalZ.
From Stdlib Require Import Sorted Permutation.
Import ListNotations.

Set Warnings "-register-all".

Open Scope string_scope.
Open Scope Z_scope.

(** ** Values and exceptions *)

Inductive value : Type :=
| VNone
| VBool (b : bool)
| VInt (z : Z)
| VStr (s : string)
| VList (l : list value)
| VDict (d : list (string * value)).

(** The exception classes the code can meet; each carries [str(e)]. *)
Inductive exn : Type :=
| AttributeError (msg : string)
| TypeError (msg : string)
| ValueError (msg : string)
| KeyError (msg : string)
| IndexError (msg : string)
| OverflowError (msg : string)
| RequestException (msg : string).

Definition exn_str (e : exn) : string :=
  match e with
  | AttributeError m | TypeError m | ValueError m | KeyError m
  | IndexError m | OverflowError m | RequestException m => m
  end.

(** [isinstance(e, requests.RequestException)] *)
Definition is_request_exception (e : exn) : bool :=
  match e with RequestException _ => true | _ => false end.

Inductive result (A : Type) : Type :=
| Ok (a : A)
| Raise (e : exn).
Arguments Ok {A} a.
Arguments Raise {A} e.

Definition bind {A B : Type} (m : result A) (k : A -> result B) : result B :=
  match m with
  | Ok a => k a
  | Raise e => Raise e
  end.

Declare Scope py_scope.
Delimit Scope py_scope with py.
Notation "x <- m ;; k" := (bind m (fun x => k))
  (at level 61, m at next level, right associativity) : py_scope.
Open Scope py_scope.

Fixpoint mapM {A B : Type} (f : A -> result B) (l : list A) : result (list B) :=
  match l with
  | [] => Ok []
  | x :: l' => y <- f x ;; ys <- mapM f l' ;; Ok (y :: ys)
  end.

(** ** Strings *)

Definition char_quote : ascii := "039"%char.
Definition char_dquote : ascii := "034"%char.
Definition char_backslash : ascii := "092"%char.

Fixpoint str_has_char (c : ascii) (s : string) : bool :=
  match s with
  | EmptyString => false
  | String a s' => Ascii.eqb a c || str_has_char c s'
  end.

(** [needle in haystack] on two strings *)
Fixpoint str_contains (needle haystack : string) : bool :=
  String.prefix needle haystack ||
  match haystack with
  | EmptyString => false
  | String _ h' => str_contains needle h'
  end.

(** [s.replace(c, by)] for a one-character pattern *)
Fixpoint str_replace_char (c : ascii) (by_ : string) (s : string) : string :=
  match s with
  | EmptyString => EmptyString
  | String a s' =>
      if Ascii.eqb a c then by_ ++ str_replace_char c by_ s'
      else String a (str_replace_char c by_ s')
  end.

Definition is_upper_char (a : ascii) : bool :=
  let n := nat_of_ascii a in (Nat.leb 65 n && Nat.leb n 90)%bool.
Definition is_lower_char (a : ascii) : bool :=
  let n := nat_of_ascii a in (Nat.leb 97 n && Nat.leb n 122)%bool.
Definition is_alpha_char (a : ascii) : bool :=
  is_upper_char a || is_lower_char a.
Definition is_digit_char (a : ascii) : bool :=
  let n := nat_of_ascii a in (Nat.leb 48 n && Nat.leb n 57)%bool.

Definition upper_char (a : ascii) : ascii :=
  if is_lower_char a then ascii_of_nat (nat_of_ascii a - 32) else a.

(** [s.upper()] *)
Fixpoint str_upper (s : string) : string :=
  match s with
  | EmptyString => EmptyString
  | String a s' => String (upper_char a) (str_upper s')
  end.

Fixpoint str_all (p : ascii -> bool) (s : string) : bool :=
  match s with
  | EmptyString => true
  | String a s' => p a && str_all p s'
  end.

(** [s.isalpha()]: at least one character and all of them letters *)
Definition str_isalpha (s : string) : bool :=
  match s with
  | EmptyString => false
  | _ => str_all is_alpha_char s
  end.

(** [sep.join(l)] *)
Definition str_join (sep : string) (l : list string) : string :=
  String.concat sep l.

(** [str(z)] of an [int] *)
Definition str_of_Z (z : Z) : string :=
  NilZero.string_of_int (Z.to_int z).

Definition hex_digit (n : nat) : ascii :=
  if Nat.ltb n 10 then ascii_of_nat (48 + n) else ascii_of_nat (87 + n).

Definition escape_char (q : ascii) (a : ascii) : string :=
  let n := nat_of_ascii a in
  if Ascii.eqb a char_backslash then String char_backslash (String char_backslash EmptyString)
  else if Ascii.eqb a q then String char_backslash (String q EmptyString)
  else if Nat.eqb n 10 then String char_backslash "n"
  else if Nat.eqb n 13 then String char_backslash "r"
  else if Nat.eqb n 9 then String char_backslash "t"
  else if (Nat.ltb n 32 || Nat.leb 127 n)%bool then
    String char_backslash
      (String "x" (String (hex_digit (Nat.div n 16)) (String (hex_digit (Nat.modulo n 16)) EmptyString)))
  else String a EmptyString.

Fixpoint escape_str (q : ascii) (s : string) : string :=
  match s with
  | EmptyString => EmptyString
  | String a s' => escape_char q a ++ escape_str q s'
  end.

(** [repr(s)] of a [str]: single quotes, unless the text has a single quote and
    no double quote. *)
Definition repr_str (s : string) : string :=
  let q := if (str_has_char char_quote s && negb (str_has_char char_dquote s))%bool
           then char_dquote else char_quote in
  String q (escape_str q s ++ String q EmptyString).

(** ** Python operations on values *)

Definition type_name (v : value) : string :=
  match v with
  | VNone => "NoneType"
  | VBool _ => "bool"
  | VInt _ => "int"
  | VStr _ => "str"
  | VList _ => "list"
  | VDict _ => "dict"
  end.

(** [bool(v)] *)
Definition truthy (v : value) : bool :=
  match v with
  | VNone => false
  | VBool b => b
  | VInt z => negb (z =? 0)
  | VStr s => negb (String.eqb s "")
  | VList l => match l with [] => false | _ => true end
  | VDict d => match d with [] => false | _ => true end
  end.

Fixpoint lookup (k : string) (d : list (string * value)) : option value :=
  match d with
  | [] => None
  | (k', v) :: d' => if String.eqb k k' then Some v else lookup k d'
  end.

(** [bool] is a subclass of [int] *)
Definition num_of (v : value) : option Z :=
  match v with
  | VInt z => Some z
  | VBool b => Some (Z.b2z b)
  | _ => None
  end.

Fixpoint repr (v : value) : string :=
  match v with
  | VNone => "None"
  | VBool true => "True"
  | VBool false => "False"
  | VInt z => str_of_Z z
  | VStr s => repr_str s
  | VList l => "[" ++ str_join ", " (map repr l) ++ "]"
  | VDict d =>
      "{" ++ str_join ", "
               ((fix items (d : list (string * value)) : list string :=
                   match d with
                   | [] => []
                   | (k, x) :: d' => (repr_str k ++ ": " ++ repr x) :: items d'
                   end) d) ++ "}"
  end.

(** [str(v)], as an f-string field prints it *)
Definition py_str (v : value) : string :=
  match v with
  | VStr s => s
  | _ => repr v
  end.

Definition no_attribute (v : value) (attr : string) : exn :=
  AttributeError ("'" ++ type_name v ++ "' object has no attribute '" ++ attr ++ "'").

(** [v.get(k, default)] *)
Definition py_get (v : value) (k : string) (default : value) : result value :=
  match v with
  | VDict d => Ok (match lookup k d with Some x => x | None => default end)
  | _ => Raise (no_attribute v "get")
  end.

Definition not_iterable (v : value) : exn :=
  TypeError ("'" ++ type_name v ++ "' object is not iterable").

Fixpoint chars (s : string) : list value :=
  match s with
  | EmptyString => []
  | String a s' => VStr (String a EmptyString) :: chars s'
  end.

(** the items a [for] loop over [v] visits *)
Definition py_iter (v : value) : result (list value) :=
  match v with
  | VList l => Ok l
  | VDict d => Ok (map (fun kv => VStr (fst kv)) d)
  | VStr s => Ok (chars s)
  | _ => Raise (not_iterable v)
  end.

(** [len(v)] *)
Definition py_len (v : value) : result Z :=
  match v with
  | VList l => Ok (Z.of_nat (List.length l))
  | VDict d => Ok (Z.of_nat (List.length d))
  | VStr s => Ok (Z.of_nat (String.length s))
  | _ => Raise (TypeError ("object of type '" ++ type_name v ++ "' has no len()"))
  end.

(** [v[k]] with a string key *)
Definition py_getitem_str (v : value) (k : string) : result value :=
  match v with
  | VDict d => match lookup k d with
               | Some x => Ok x
               | None => Raise (KeyError (repr_str k))
               end
  | VList _ => Raise (TypeError "list indices must be integers or slices, not str")
  | VStr _ => Raise (TypeError "string indices must be integers, not 'str'")
  | _ => Raise (TypeError ("'" ++ type_name v ++ "' object is not subscriptable"))
  end.

(** [v[0]] *)
Definition py_getitem_0 (v : value) : result value :=
  match v with
  | VList (x :: _) => Ok x
  | VList [] => Raise (IndexError "list index out of range")
  | VStr (String a _) => Ok (VStr (String a EmptyString))
  | VStr EmptyString => Raise (IndexError "string index out of range")
  | VDict _ => Raise (KeyError "0")
  | _ => Raise (TypeError ("'" ++ type_name v ++ "' object is not subscriptable"))
  end.

(** [a == b] *)
Fixpoint py_eq (a b : value) {struct a} : bool :=
  match a, b with
  | VNone, VNone => true
  | VStr s, VStr t => String.eqb s t
  | VList l, VList m =>
      (fix go (l m : list value) : bool :=
         match l, m with
         | [], [] => true
         | x :: l', y :: m' => py_eq x y && go l' m'
         | _, _ => false
         end) l m
  | VDict d, VDict e =>
      Nat.eqb (List.length d) (List.length e) &&
      (fix go (d : list (string * value)) : bool :=
         match d with
         | [] => true
         | (k, x) :: d' =>
             match lookup k e with
             | Some y => py_eq x y
             | None => false
             end && go d'
         end) d
  | _, _ =>
      match num_of a, num_of b with
      | Some x, Some y => x =? y
      | _, _ => false
      end
  end.

Definition lt_unsupported (ta tb : string) : exn :=
  TypeError ("'<' not supported between instances of '" ++ ta ++ "' and '" ++ tb ++ "'").

(** [a < b] *)
Fixpoint py_lt (a b : value) {struct a} : result bool :=
  match a, b with
  | VStr s, VStr t => Ok (String.ltb s t)
  | VList l, VList m =>
      (fix go (l m : list value) : result bool :=
         match l, m with
         | [], [] => Ok false
         | [], _ :: _ => Ok true
         | _ :: _, [] => Ok false
         | x :: l', y :: m' => if py_eq x y then go l' m' else py_lt x y
         end) l m
  | _, _ =>
      match num_of a, num_of b with
      | Some x, Some y => Ok (x <? y)
      | _, _ => Raise (lt_unsupported (type_name a) (type_name b))
      end
  end.

(** [needle in v] for a string needle *)
Definition py_contains (needle : string) (v : value) : result bool :=
  match v with
  | VStr s => Ok (str_contains needle s)
  | VList l => Ok (existsb (py_eq (VStr needle)) l)
  | VDict d => Ok (match lookup needle d with Some _ => true | None => false end)
  | _ => Raise (TypeError ("argument of type '" ++ type_name v ++ "' is not iterable"))
  end.

(** ** Number formatting *)

(** [float(z)]: the nearest double (ties to even), as the integer it denotes;
    integers of at most 53 bits are exact. *)
Definition int_to_float (z : Z) : result Z :=
  let a := Z.abs z in
  let n := if a =? 0 then 0 else Z.log2 a + 1 in
  if n <=? 53 then Ok z
  else
    let sh := n - 53 in
    let q := Z.shiftr a sh in
    let r := Z.land a (Z.ones sh) in
    let half := Z.shiftl 1 (sh - 1) in
    let q' := if ((half <? r) || ((half =? r) && Z.odd q))%bool then q + 1 else q in
    let m := Z.shiftl q' sh in
    if 2 ^ 1024 <=? m then Raise (OverflowError "int too large to convert to float")
    else Ok (Z.sgn z * m).

(** a comma before every group of three digits, counted from the right;
    the argument is the reversed digit list *)
Fixpoint commas_rev (n : nat) (l : list ascii) : list ascii :=
  match l with
  | [] => []
  | a :: l' =>
      if Nat.eqb n 3 then ","%char :: a :: commas_rev 1 l'
      else a :: commas_rev (S n) l'
  end.

Definition group_thousands (digits : string) : string :=
  string_of_list_ascii (List.rev (commas_rev 0 (List.rev (list_ascii_of_string digits)))).

(** [format(v, ",.0f")] *)
Definition format_comma_0f (v : value) : result string :=
  match v with
  | VStr _ => Raise (ValueError "Unknown format code 'f' for object of type 'str'")
  | _ =>
      match num_of v with
      | Some z =>
          m <- int_to_float z ;;
          Ok ((if m <? 0 then "-" else "") ++ group_thousands (str_of_Z (Z.abs m)))
      | None =>
          Raise (TypeError ("unsupported format string passed to " ++ type_name v ++ ".__format__"))
      end
  end.

Definition unsupported_operand (op : string) (v : value) : exn :=
  TypeError ("unsupported operand type(s) for " ++ op ++ ": '" ++ type_name v ++ "' and 'int'").

(** [v // d] for a positive literal [d] *)
Definition py_floordiv (v : value) (d : Z) : result Z :=
  match num_of v with
  | Some z => Ok (z / d)
  | None => Raise (unsupported_operand "//" v)
  end.

(** [v % d] for a positive literal [d]; the code only reaches it after
    [v // d] has succeeded, that is on numbers *)
Definition py_mod (v : value) (d : Z) : result Z :=
  match num_of v with
  | Some z => Ok (z mod d)
  | None => Raise (unsupported_operand "%" v)
  end.

(** ** The formatters *)

Definition format_duration (minutes : value) : result string :=
  if negb (truthy minutes) then Ok "Unknown"
  else
    hours <- py_floordiv minutes 60 ;;
    remaining_minutes <- py_mod minutes 60 ;;
    if ((0 <? hours) && (0 <? remaining_minutes))%bool then
      Ok (str_of_Z hours ++ "h " ++ str_of_Z remaining_minutes ++ "m")
    else if 0 <? hours then
      Ok (str_of_Z hours ++ "h")
    else
      Ok (str_of_Z remaining_minutes ++ "m").

(** The [datetime] class, as far as the code uses it. *)
Class DateTimeLib : Type := {
  datetime : Type;
  (** [datetime.fromisoformat(s)] *)
  fromisoformat : string -> result datetime;
  (** [dt.strftime(fmt)] *)
  strftime : datetime -> string -> result string
}.

Definition display_format : string := "%b-%d, %Y | %I:%M %p".

(** [v.replace("Z", "+00:00")] *)
Definition py_replace_Z (v : value) : result string :=
  match v with
  | VStr s => Ok (str_replace_char "Z"%char "+00:00" s)
  | _ => Raise (no_attribute v "replace")
  end.

Section Normalizer.

Context {DT : DateTimeLib}.

(** the [try] block of [format_time] *)
Definition format_time_try (time_str : value) : result value :=
  has_bar <- py_contains "|" time_str ;;
  if has_bar then Ok time_str
  else
    has_t <- py_contains "T" time_str ;;
    if has_t then
      iso <- py_replace_Z time_str ;;
      dt <- fromisoformat iso ;;
      s <- strftime dt display_format ;;
      Ok (VStr s)
    else Ok time_str.

Definition format_time (time_str : value) : value :=
  if negb (truthy time_str) then VStr "Unknown"
  else
    match format_time_try time_str with
    | Ok v => v
    | Raise _ => time_str
    end.

(** ** Booking links *)

(** [if return_date:] on an [Optional[str]] *)
Definition given (return_date : option string) : bool :=
  match return_date with
  | Some s => negb (String.eqb s "")
  | None => false
  end.

(** [f"{return_date}"] *)
Definition opt_str (return_date : option string) : string :=
  match return_date with
  | Some s => s
  | None => "None"
  end.

Definition opt_value (return_date : option string) : value :=
  match return_date with
  | Some s => VStr s
  | None => VNone
  end.

Definition google_flights_base : string := "https://www.google.com/travel/flights".

(** Method 3 of [generate_booking_link] *)
Definition generic_flights_url (source destination departure_date : string)
    (return_date : option string) : string :=
  let params :=
    List.app
      [ "hl=en"; "curr=USD"; "f=0";
        "tfs=CAEQAxoaagwIAhIIL20vMDJqNnQSCjIwMjUtMDMtMTUaGhIKMjAyNS0wMy0yMBAC";
        "q=Flights%20from%20" ++ source ++ "%20to%20" ++ destination;
        "d1=" ++ departure_date ]
      (if given return_date then ["d2=" ++ opt_str return_date; "f=1"] else []) in
  google_flights_base ++ "?" ++ str_join "&" params.

Definition token_url (token : value) : string :=
  "https://www.google.com/travel/flights?tfs=" ++ py_str token.

(** the [try] block of [generate_booking_link]; the statements after the
    [return] of Method 3 are never executed *)
Definition generate_booking_link_try (flight_data : value)
    (source destination departure_date : string) (return_date : option string)
    : result string :=
  booking_token <- py_get flight_data "booking_token" VNone ;;
  if truthy booking_token then
    tok <- py_getitem_str flight_data "booking_token" ;;
    Ok (token_url tok)
  else
    departure_token <- py_get flight_data "departure_token" VNone ;;
    if truthy departure_token then
      tok <- py_getitem_str flight_data "departure_token" ;;
      Ok (token_url tok)
    else Ok (generic_flights_url source destination departure_date return_date).

(** the [except] block of [generate_booking_link] *)
Definition fallback_url (source destination departure_date : string)
    (return_date : option string) : string :=
  "https://www.google.com/travel/flights?hl=en&curr=USD&q=Flights%20from%20"
    ++ source ++ "%20to%20" ++ destination ++ "%20on%20" ++ departure_date
    ++ (if given return_date then "%20return%20" ++ opt_str return_date else "").

Definition generate_booking_link (flight_data : value)
    (source destination departure_date : string) (return_date : option string)
    : string :=
  match generate_booking_link_try flight_data source destination departure_date return_date with
  | Ok url => url
  | Raise _ => fallback_url source destination departure_date return_date
  end.

(** ** The normalizer *)

(** [{"name": ..., "id": ..., "time": ...}] of [segment.get(key, {})] *)
Definition airport_info (segment : value) (key : string) : result value :=
  a1 <- py_get segment key (VDict []) ;;
  name <- py_get a1 "name" (VStr "Unknown") ;;
  a2 <- py_get segment key (VDict []) ;;
  id <- py_get a2 "id" (VStr "") ;;
  a3 <- py_get segment key (VDict []) ;;
  time <- py_get a3 "time" (VStr "") ;;
  Ok (VDict [("name", name); ("id", id); ("time", format_time time)]).

Definition segment_info (segment : value) : result value :=
  airline <- py_get segment "airline" (VStr "Unknown") ;;
  flight_number <- py_get segment "flight_number" (VStr "N/A") ;;
  departure_airport <- airport_info segment "departure_airport" ;;
  arrival_airport <- airport_info segment "arrival_airport" ;;
  duration_raw <- py_get segment "duration" (VInt 0) ;;
  duration <- format_duration duration_raw ;;
  aircraft <- py_get segment "airplane" (VStr "Unknown") ;;
  travel_class <- py_get segment "travel_class" (VStr "") ;;
  airline_logo <- py_get segment "airline_logo" (VStr "") ;;
  extensions <- py_get segment "extensions" (VList []) ;;
  legroom <- py_get segment "legroom" (VStr "") ;;
  overnight <- py_get segment "overnight" (VBool false) ;;
  often_delayed <- py_get segment "often_delayed_by_over_30_min" (VBool false) ;;
  Ok (VDict
        [ ("airline", airline);
          ("flight_number", flight_number);
          ("departure_airport", departure_airport);
          ("arrival_airport", arrival_airport);
          ("duration", VStr duration);
          ("aircraft", aircraft);
          ("travel_class", travel_class);
          ("airline_logo", airline_logo);
          ("extensions", extensions);
          ("legroom", legroom);
          ("overnight", overnight);
          ("often_delayed", often_delayed) ]).

Definition layover_info (layover : value) : result value :=
  duration_raw <- py_get layover "duration" (VInt 0) ;;
  duration <- format_duration duration_raw ;;
  name <- py_get layover "name" (VStr "") ;;
  id <- py_get layover "id" (VStr "") ;;
  overnight <- py_get layover "overnight" (VBool false) ;;
  Ok (VDict
        [ ("duration", VStr duration);
          ("name", name);
          ("id", id);
          ("overnight", overnight) ]).

(** the airline of the first segment *)
Definition first_airline (flight : value) : result value :=
  fl <- py_get flight "flights" VNone ;;
  if truthy fl then
    fl1 <- py_getitem_str flight "flights" ;;
    n <- py_len fl1 ;;
    if 0 <? n then
      fl2 <- py_getitem_str flight "flights" ;;
      seg0 <- py_getitem_0 fl2 ;;
      py_get seg0 "airline" (VStr "Unknown Airline")
    else Ok (VStr "Unknown Airline")
  else Ok (VStr "Unknown Airline").

(** [f"${price:,.0f}" if price else "Price not available"] *)
Definition format_price (price : value) : result string :=
  if truthy price then
    s <- format_comma_0f price ;;
    Ok ("$" ++ s)
  else Ok "Price not available".

(** the body of the loop over the raw flight options *)
Definition enhance_flight (flight : value)
    (source destination departure_date : string) (return_date : option string)
    : result value :=
  airline_name <- first_airline flight ;;
  price <- py_get flight "price" (VInt 0) ;;
  price_formatted <- format_price price ;;
  duration_minutes <- py_get flight "total_duration" (VInt 0) ;;
  duration_formatted <- format_duration duration_minutes ;;
  let booking_link :=
    generate_booking_link flight source destination departure_date return_date in
  segments_raw <- py_get flight "flights" (VList []) ;;
  segments <- py_iter segments_raw ;;
  flight_segments <- mapM segment_info segments ;;
  layovers_raw <- py_get flight "layovers" (VList []) ;;
  layovers_it <- py_iter layovers_raw ;;
  layovers <- mapM layover_info layovers_it ;;
  let num_stops := Z.of_nat (List.length layovers) in
  departure_token <- py_get flight "departure_token" (VStr "") ;;
  booking_token <- py_get flight "booking_token" (VStr "") ;;
  type <- py_get flight "type" (VStr "") ;;
  airline_logo <- py_get flight "airline_logo" (VStr "") ;;
  extensions <- py_get flight "extensions" (VList []) ;;
  carbon_emissions <- py_get flight "carbon_emissions" (VDict []) ;;
  method_token <- py_get flight "departure_token" VNone ;;
  Ok (VDict
        [ ("airline", airline_name);
          ("price", price);
          ("price_formatted", VStr price_formatted);
          ("total_duration", duration_minutes);
          ("duration_formatted", VStr duration_formatted);
          ("stops", VInt num_stops);
          ("departure_token", departure_token);
          ("booking_token", booking_token);
          ("type", type);
          ("airline_logo", airline_logo);
          ("extensions", extensions);
          ("carbon_emissions", carbon_emissions);
          ("flights", VList flight_segments);
          ("layovers", VList layovers);
          ("booking_link", VStr booking_link);
          ("booking_info",
            VDict
              [ ("can_book", VBool true);
                ("booking_method",
                  VStr (if truthy method_token then "google_travel" else "airline_website"));
                ("price_currency", VStr "USD");
                ("booking_notes",
                  VStr "Click the booking link to proceed with ticket purchase") ]) ]).

(** *** Sorting by price *)

(** what the key function of the sort returns: a value of the flight, or
    [float("inf")] *)
Inductive sort_key : Type :=
| KVal (v : value)
| KInf.

(** [lambda x: x.get("price", float("inf"))] *)
Definition price_key (x : value) : result sort_key :=
  match x with
  | VDict d => Ok (match lookup "price" d with Some p => KVal p | None => KInf end)
  | _ => Raise (no_attribute x "get")
  end.

(** [a < b] on sort keys *)
Definition key_lt (a b : sort_key) : result bool :=
  match a, b with
  | KVal x, KVal y => py_lt x y
  | KInf, KInf => Ok false
  | KVal x, KInf =>
      match num_of x with
      | Some _ => Ok true
      | None => Raise (lt_unsupported (type_name x) "float")
      end
  | KInf, KVal y =>
      match num_of y with
      | Some _ => Ok false
      | None => Raise (lt_unsupported "float" (type_name y))
      end
  end.

(** [list.sort] is stable and fails as soon as a comparison does. It is
    modelled as the insertion, from the left, of each element behind the
    elements that are not greater. Which unsupported pair the sort of CPython
    meets first is not modelled: the [TypeError] names the pair this insertion
    meets. *)
Fixpoint insert_by_key (x : sort_key * value) (l : list (sort_key * value))
    : result (list (sort_key * value)) :=
  match l with
  | [] => Ok [x]
  | y :: l' =>
      b <- key_lt (fst x) (fst y) ;;
      if b then Ok (x :: y :: l')
      else l'' <- insert_by_key x l' ;; Ok (y :: l'')
  end.

Fixpoint sort_keyed (done todo : list (sort_key * value))
    : result (list (sort_key * value)) :=
  match todo with
  | [] => Ok done
  | x :: todo' => done' <- insert_by_key x done ;; sort_keyed done' todo'
  end.

(** [flights.sort(key=lambda x: x.get("price", float("inf")))] *)
Definition sort_by_price (flights : list value) : result (list value) :=
  keyed <- mapM (fun x => k <- price_key x ;; Ok (k, x)) flights ;;
  sorted <- sort_keyed [] keyed ;;
  Ok (map snd sorted).

Definition search_params (source destination departure_date : string)
    (return_date : option string) (currency : string) : value :=
  VDict
    [ ("source", VStr source);
      ("destination", VStr destination);
      ("departure_date", VStr departure_date);
      ("return_date", opt_value return_date);
      ("currency", VStr currency) ].

Definition booking_instructions : string :=
  "Click on any booking link to proceed with ticket purchase. Links will redirect to Google Travel or airline websites for booking.".

(** the [try] block of [process_flight_data]; [now] is what
    [datetime.now().isoformat()] reads *)
Definition process_flight_data_try (flight_data : value)
    (source destination departure_date : string) (return_date : option string)
    (now : string) : result value :=
  best0 <- py_get flight_data "best_flights" (VList []) ;;
  best_flights <-
    (if negb (truthy best0) then py_get flight_data "other_flights" (VList [])
     else Ok best0) ;;
  raw <- py_iter best_flights ;;
  flights <-
    mapM (fun flight => enhance_flight flight source destination departure_date return_date)
         raw ;;
  sorted <- sort_by_price flights ;;
  let top_flights := firstn 5 sorted in
  price_insights <- py_get flight_data "price_insights" (VDict []) ;;
  Ok (VDict
        [ ("success", VBool true);
          ("flights", VList top_flights);
          ("search_params",
            search_params source destination departure_date return_date "USD");
          ("total_flights", VInt (Z.of_nat (List.length top_flights)));
          ("search_timestamp", VStr now);
          ("price_insights", price_insights);
          ("booking_instructions", VStr booking_instructions) ]).

(** the [except Exception as e] block of [process_flight_data] *)
Definition process_flight_data_except (e : exn)
    (source destination departure_date : string) (return_date : option string)
    (now : string) : value :=
  VDict
    [ ("success", VBool false);
      ("error", VStr ("Error processing flight data: " ++ exn_str e));
      ("flights", VList []);
      ("search_params",
        search_params source destination departure_date return_date "USD");
      ("total_flights", VInt 0);
      ("search_timestamp", VStr now) ].

Definition process_flight_data (flight_data : value)
    (source destination departure_date : string) (return_date : option string)
    (now : string) : value :=
  match process_flight_data_try flight_data source destination departure_date return_date now with
  | Ok r => r
  | Raise e => process_flight_data_except e source destination departure_date return_date now
  end.

End Normalizer.

(** ** The handlers *)

Variant level : Type := Info | Warning | Error.

(** what a handler does to the outside: a notification through the MCP
    context (its text is not modelled), or a GET request *)
Inductive event : Type :=
| CtxMessage (lvl : level)
| HttpGet (url : string) (params : list (string * value)) (timeout : Z).

(** a [requests.Response], as far as the code uses it *)
Record response : Type := {
  raise_for_status : result unit;
  json : result value
}.

(** the collaborators of a handler *)
Record world : Type := {
  (** [os.getenv(name)] *)
  getenv : string -> option string;
  (** [requests.get(url, params=params, timeout=timeout)] *)
  requests_get : string -> list (string * value) -> Z -> result response;
  (** [datetime.now().isoformat()] *)
  now_isoformat : string
}.

(** the MCP context object; a handler called without one gets [None] *)
Variant Context : Type := ClientContext.

(** a handler threads the trace of its events and may raise *)
Definition io (A : Type) : Type := list event -> result A * list event.

Definition ret {A : Type} (a : A) : io A := fun t => (Ok a, t).

Definition io_bind {A B : Type} (m : io A) (k : A -> io B) : io B :=
  fun t =>
    match m t with
    | (Ok a, t') => k a t'
    | (Raise e, t') => (Raise e, t')
    end.

Definition lift {A : Type} (r : result A) : io A := fun t => (r, t).

Definition emit (e : event) : io unit := fun t => (Ok tt, List.app t [e]).

(** [try: m  except Exception as e: h e] *)
Definition try_except {A : Type} (m : io A) (h : exn -> io A) : io A :=
  fun t =>
    match m t with
    | (Ok a, t') => (Ok a, t')
    | (Raise e, t') => h e t'
    end.

Notation "x <<- m ;; k" := (io_bind m (fun x => k))
  (at level 61, m at next level, right associativity) : py_scope.
Notation "m >>> k" := (io_bind m (fun _ => k))
  (at level 61, right associativity) : py_scope.

(** [await ctx.<lvl>(...)] *)
Definition ctx_call (ctx : option Context) (lvl : level) : io unit :=
  match ctx with
  | Some _ => emit (CtxMessage lvl)
  | None =>
      lift (Raise (no_attribute VNone
                     (match lvl with Info => "info" | Warning => "warning" | Error => "error" end)))
  end.

(** [if ctx: await ctx.<lvl>(...)] *)
Definition when_ctx (ctx : option Context) (lvl : level) : io unit :=
  match ctx with
  | Some _ => ctx_call ctx lvl
  | None => ret tt
  end.

Definition http_get (w : world) (url : string) (params : list (string * value))
    (timeout : Z) : io response :=
  emit (HttpGet url params timeout) >>> lift (requests_get w url params timeout).

Definition serpapi_url : string := "https://serpapi.com/search".

Definition str_params (l : list (string * string)) : list (string * value) :=
  map (fun kv => (fst kv, VStr (snd kv))) l.

Definition missing_parameters : string :=
  "Missing required parameters: source, destination, and departure_date are required.".
Definition key_not_configured : string :=
  "SerpAPI key not configured. Please set SERPAPI_KEY environment variable.".
Definition no_flights_found : string :=
  "No flights found for the specified route and dates. Please try different dates or airports.".

(** the response of the handlers' early returns *)
Definition failure (msg field : string) : value :=
  VDict [("success", VBool false); ("error", VStr msg); (field, VList [])].

Section Handlers.

Context {DT : DateTimeLib}.
Variable w : world.

Definition flights_request (serpapi_key source destination departure_date : string)
    (return_date : option string) (currency : string) : list (string * value) :=
  str_params
    (List.app
       [ ("engine", "google_flights");
         ("departure_id", str_upper source);
         ("arrival_id", str_upper destination);
         ("outbound_date", departure_date);
         ("currency", currency);
         ("hl", "en");
         ("api_key", serpapi_key) ]
       (if given return_date
        then [("return_date", opt_str return_date); ("type", "1")]
        else [("type", "2")])).

(** the response when the vendor has no primary flights *)
Definition no_flights_response (source destination departure_date : string)
    (return_date : option string) (currency : string) : value :=
  VDict
    [ ("success", VBool false);
      ("error", VStr no_flights_found);
      ("flights", VList []);
      ("search_params",
        search_params source destination departure_date return_date currency);
      ("total_flights", VInt 0);
      ("search_timestamp", VStr (now_isoformat w)) ].

(** the [try] block of [search_flights] *)
Definition search_flights_try (source destination departure_date : string)
    (return_date : option string) (currency : string) (ctx : option Context)
    : io value :=
  when_ctx ctx Info >>>
  if (String.eqb source "" || String.eqb destination "" || String.eqb departure_date "")%bool
  then when_ctx ctx Error >>> ret (failure missing_parameters "flights")
  else
    let serpapi_key := getenv w "SERPAPI_KEY" in
    if negb (given serpapi_key)
    then when_ctx ctx Error >>> ret (failure key_not_configured "flights")
    else
      let params :=
        flights_request (opt_str serpapi_key) source destination departure_date
                        return_date currency in
      when_ctx ctx Info >>>
      response <<- http_get w serpapi_url params 30 ;;
      results <<- lift (json response) ;;
      when_ctx ctx Info >>>
      has_error <<- lift (py_contains "error" results) ;;
      if has_error then
        err <<- lift (py_getitem_str results "error") ;;
        when_ctx ctx Error >>>
        ret (failure ("SerpAPI error: " ++ py_str err) "flights")
      else
        best_flights <<- lift (py_get results "best_flights" (VList [])) ;;
        if truthy best_flights then
          ret (process_flight_data results source destination departure_date
                                   return_date (now_isoformat w))
        else
          when_ctx ctx Warning >>>
          ret (no_flights_response source destination departure_date return_date currency).

(** the two [except] blocks of [search_flights] *)
Definition search_flights_except (e : exn) (source destination departure_date : string)
    (return_date : option string) (currency : string) (ctx : option Context)
    : io value :=
  let error_msg :=
    (if is_request_exception e then "API request failed: " else "Error searching flights: ")
      ++ exn_str e in
  when_ctx ctx Error >>>
  ret (VDict
         [ ("success", VBool false);
           ("error", VStr error_msg);
           ("flights", VList []);
           ("search_params",
             search_params source destination departure_date return_date currency) ]).

Definition search_flights (source destination departure_date : string)
    (return_date : option string) (currency : string) (ctx : option Context)
    : io value :=
  try_except
    (search_flights_try source destination departure_date return_date currency ctx)
    (fun e => search_flights_except e source destination departure_date return_date
                                    currency ctx).

(** the request of [search_airports] *)
Definition airports_request (serpapi_key query : string) : list (string * value) :=
  if (Nat.eqb (String.length query) 3 && str_isalpha query)%bool then
    str_params
      [ ("engine", "google_flights");
        ("departure_id", str_upper query);
        ("arrival_id", "");
        ("outbound_date", "2025-12-01");
        ("currency", "USD");
        ("hl", "en");
        ("api_key", serpapi_key) ]
  else
    str_params
      [ ("engine", "google");
        ("q", query ++ " airport IATA code information");
        ("api_key", serpapi_key) ].

Definition search_airports_try (query : string) (ctx : option Context) : io value :=
  when_ctx ctx Info >>>
  let serpapi_key := getenv w "SERPAPI_KEY" in
  if negb (given serpapi_key)
  then when_ctx ctx Error >>> ret (failure key_not_configured "airports")
  else
    let params := airports_request (opt_str serpapi_key) query in
    when_ctx ctx Info >>>
    response <<- http_get w serpapi_url params 30 ;;
    lift (raise_for_status response) >>>
    results <<- lift (json response) ;;
    when_ctx ctx Info >>>
    ret (VDict
           [ ("success", VBool true);
             ("serpapi_response", results);
             ("query", VStr query);
             ("search_timestamp", VStr (now_isoformat w)) ]).

(** the two [except] blocks of [search_airports]; [ctx.error] is not guarded
    here *)
Definition search_airports_except (e : exn) (query : string) (ctx : option Context)
    : io value :=
  let error_msg :=
    (if is_request_exception e then "API request failed: " else "Error searching airports: ")
      ++ exn_str e in
  ctx_call ctx Error >>>
  ret (VDict
         [ ("success", VBool false);
           ("error", VStr error_msg);
           ("airports", VList []);
           ("query", VStr query) ]).

Definition search_airports (query : string) (ctx : option Context) : io value :=
  try_except (search_airports_try query ctx)
             (fun e => search_airports_except e query ctx).

Definition prices_params (source destination start_date end_date currency : string)
    : value :=
  VDict
    [ ("source", VStr source);
      ("destination", VStr destination);
      ("start_date", VStr start_date);
      ("end_date", VStr end_date);
      ("currency", VStr currency) ].

Definition prices_request (serpapi_key source destination start_date end_date
    currency : string) : list (string * value) :=
  str_params
    [ ("engine", "google_flights");
      ("departure_id", str_upper source);
      ("arrival_id", str_upper destination);
      ("outbound_date", start_date);
      ("return_date", end_date);
      ("currency", currency);
      ("hl", "en");
      ("api_key", serpapi_key) ].

Definition get_flight_prices_try (source destination start_date end_date
    currency : string) (ctx : option Context) : io value :=
  when_ctx ctx Info >>>
  let serpapi_key := getenv w "SERPAPI_KEY" in
  if negb (given serpapi_key)
  then when_ctx ctx Error >>> ret (failure key_not_configured "price_trends")
  else
    let params :=
      prices_request (opt_str serpapi_key) source destination start_date end_date
                     currency in
    when_ctx ctx Info >>>
    response <<- http_get w serpapi_url params 30 ;;
    lift (raise_for_status response) >>>
    results <<- lift (json response) ;;
    when_ctx ctx Info >>>
    ret (VDict
           [ ("success", VBool true);
             ("serpapi_response", results);
             ("search_params",
               prices_params source destination start_date end_date currency);
             ("search_timestamp", VStr (now_isoformat w)) ]).

(** the two [except] blocks of [get_flight_prices]; [ctx.error] is not guarded
    here *)
Definition get_flight_prices_except (e : exn) (source destination start_date
    end_date currency : string) (ctx : option Context) : io value :=
  let error_msg :=
    (if is_request_exception e then "API request failed: "
     else "Error getting flight prices: ") ++ exn_str e in
  ctx_call ctx Error >>>
  ret (VDict
         [ ("success", VBool false);
           ("error", VStr error_msg);
           ("price_trends", VList []);
           ("search_params",
             prices_params source destination start_date end_date currency) ]).

Definition get_flight_prices (source destination start_date end_date
    currency : string) (ctx : option Context) : io value :=
  try_except
    (get_flight_prices_try source destination start_date end_date currency ctx)
    (fun e => get_flight_prices_except e source destination start_date end_date
                                       currency ctx).

End Handlers.

(** a handler called from an empty trace *)
Definition run {A : Type} (m : io A) : result A * list event := m [].

(** ** Reading a response *)

Definition field (k : string) (r : value) : option value :=
  match r with
  | VDict d => lookup k d
  | _ => None
  end.

Definition has_key (k : string) (r : value) : bool :=
  match field k r with
  | Some _ => true
  | None => false
  end.

(** the requests of a trace, in order *)
Fixpoint http_requests (t : list event) : list (string * list (string * value)) :=
  match t with
  | [] => []
  | HttpGet url params _ :: t' => (url, params) :: http_requests t'
  | CtxMessage _ :: t' => http_requests t'
  end.

(** ** Reading a duration back

    The code has no parser for durations; this one follows the three shapes
    the specification gives for the output of [format_duration]:
    [Hh Mm], [Hh] and [Mm]. *)

Fixpoint span_digits (s : string) : string * string :=
  match s with
  | EmptyString => (EmptyString, EmptyString)
  | String a s' =>
      if is_digit_char a then
        let (d, r) := span_digits s' in (String a d, r)
      else (EmptyString, s)
  end.

Definition read_number (s : string) : option (Z * string) :=
  let (d, r) := span_digits s in
  match NilZero.uint_of_string d with
  | Some u => Some (Z.of_uint u, r)
  | None => None
  end.

(** the hours and the minutes written in a formatted duration *)
Definition parse_duration (s : string) : option (Z * Z) :=
  match read_number s with
  | Some (n, "h") => Some (n, 0)
  | Some (n, "m") => Some (0, n)
  | Some (n, String "h" (String " " r)) =>
      match read_number r with
      | Some (k, "m") => Some (n, k)
      | _ => None
      end
  | _ => None
  end.

Definition minutes_of (hm : Z * Z) : Z := fst hm * 60 + snd hm.

(** ** Reading a booking link

    a record has a token when the field is there and is not empty *)
Definition token_of (k : string) (record : list (string * value)) : option value :=
  match lookup k record with
  | Some t => if truthy t then Some t else None
  | None => None
  end.

(** ** Example collaborators *)

(** a [datetime] that accepts no string at all *)
Definition strict_datetime : DateTimeLib :=
  {| datetime := unit;
     fromisoformat := fun s => Raise (ValueError ("Invalid isoformat string: " ++ repr_str s));
     strftime := fun _ _ => Ok "" |}.

(** ** Reading the normalizer

    the field of a raw response, or the default [get] is given *)
Definition get_or (k : string) (default : value) (d : list (string * value)) : value :=
  match lookup k d with
  | Some v => v
  | None => default
  end.

(** the normalizer on a response whose primary and alternate lists are both
    [flights] *)
Definition normalize_list {DT : DateTimeLib} (flights price_insights : value)
    (source destination departure_date : string) (return_date : option string)
    (now : string) : value :=
  process_flight_data
    (VDict [ ("best_flights", flights);
             ("other_flights", flights);
             ("price_insights", price_insights) ])
    source destination departure_date return_date now.

(** ** Example inputs *)

Definition bad_price_response : value :=
  VDict [("best_flights", VList [VDict [("price", VStr "cheap")]])].

Definition no_flights_at_all : list (string * value) :=
  [ ("search_metadata", VDict [("status", VStr "Success")]);
    ("best_flights", VList []);
    ("other_flights", VList []) ].

Definition only_other_flights : list (string * value) :=
  [ ("best_flights", VList []);
    ("other_flights",
      VList [VDict [("price", VInt 320); ("total_duration", VInt 95);
                    ("departure_token", VStr "DEP7")]]) ].

(** ** Reading a query

    exactly three characters, all of them letters *)
Definition is_letter (c : ascii) : Prop :=
  (65 <= nat_of_ascii c <= 90)%nat \/ (97 <= nat_of_ascii c <= 122)%nat.

Definition three_letters (query : string) : Prop :=
  String.length query = 3%nat /\ Forall is_letter (list_ascii_of_string query).

(** ** Example worlds *)

Definition ok_response (body : value) : response :=
  {| raise_for_status := Ok tt; json := Ok body |}.

(** a vendor that answers every request with [body] *)
Definition world_of (key : option string) (body : value) : world :=
  {| getenv := fun name => if String.eqb name "SERPAPI_KEY" then key else None;
     requests_get := fun _ _ _ => Ok (ok_response body);
     now_isoformat := "2025-03-01T10:00:00" |}.

(** a network that is down *)
Definition world_offline (key : option string) : world :=
  {| getenv := fun name => if String.eqb name "SERPAPI_KEY" then key else None;
     requests_get := fun _ _ _ => Raise (RequestException "Connection refused");
     now_isoformat := "2025-03-01T10:00:00" |}.

Definition one_priced_flight : value :=
  VDict [("best_flights", VList [VDict [("price", VInt 100)]])].

(** ** The shape a response is claimed to have

    [success], the result field of the handler and [error], all three *)
Definition claimed_shape (result_field : string) (r : value) : Prop :=
  has_key "success" r = true /\
  has_key result_field r = true /\
  has_key "error" r = true.

(** ** The order of the returned flights *)

(** [x] is not dearer than [y]: both have a price and [price y < price x] is
    false *)
Definition price_le (x y : value) : Prop :=
  exists p q,
    field "price" x = Some p /\ field "price" y = Some q /\ py_lt q p = Ok false.

(** the same on the pairs the sort works on *)
Definition key_le (a b : sort_key * value) : Prop :=
  key_lt (fst b) (fst a) = Ok false.

(** the prices that get past [format_price]: a number, or a value that counts
    as false *)
Definition simple_price (p : value) : Prop :=
  num_of p <> None \/ truthy p = false.

Definition keyed_ok (kx : sort_key * value) : Prop :=
  exists p,
    fst kx = KVal p /\ field "price" (snd kx) = Some p /\ simple_price p.

(** a priced option followed by an option without a price *)
Definition priced_then_unpriced : value :=
  VDict
    [ ("best_flights",
        VList [ VDict [("type", VStr "priced"); ("price", VInt 500)];
                VDict [("type", VStr "unpriced")] ]) ].

(** the response of the specification's first scenario *)
Definition scenario_response : value :=
  VDict
    [ ("best_flights",
        VList
          [ VDict
              [ ("price", VInt 500);
                ("flights",
                  VList
                    [ VDict
                        [ ("airline", VStr "A");
                          ("flight_number", VStr "A1");
                          ("departure_airport",
                            VDict [("id", VStr "JFK"); ("time", VStr "2025-03-06 18:20")]);
                          ("arrival_airport",
                            VDict [("id", VStr "LAX"); ("time", VStr "2025-03-06 21:20")]);
                          ("duration", VInt 360) ] ]);
                ("total_duration", VInt 360);
                ("booking_token", VStr "TOK1") ] ]) ].

(** ** Reading a formatted price back

    the code has no parser for prices; this one undoes what the f-string
    [f"${price:,.0f}"] writes for a positive amount *)
Definition strip_commas (s : string) : string :=
  string_of_list_ascii
    (filter (fun c => negb (Ascii.eqb c ","%char)) (list_ascii_of_string s)).

Definition read_price (s : string) : option Z :=
  match s with
  | String "$" digits =>
      match NilZero.uint_of_string (strip_commas digits) with
      | Some u => Some (Z.of_uint u)
      | None => None
      end
  | _ => None
  end.

(** a [datetime] that keeps the text it is given and prints it behind a bar *)
Definition tagging_datetime : DateTimeLib :=
  {| datetime := string;
     fromisoformat := fun s => Ok s;
     strftime := fun dt _ => Ok ("at | " ++ dt) |}.

(** ** Reading an enhanced flight *)

Definition booking_method_of (e : value) : option value :=
  match field "booking_info" e with
  | Some info => field "booking_method" info
  | None => None
  end.

Definition flight_with_booking_token_only : list (string * value) :=
  [("price", VInt 410); ("booking_token", VStr "BK42")].

Definition flight_with_departure_token : list (string * value) :=
  [("price", VInt 410); ("departure_token", VStr "DEP7")].

(** ** Reading the normalizer's input

    the list the normalizer goes through *)
Definition chosen_list (d : list (string * value)) : value :=
  let best := get_or "best_flights" (VList []) d in
  if truthy best then best else get_or "other_flights" (VList []) d.

(** the number a sort key stands for, when it is one *)
Definition key_num (k : sort_key) : option Z :=
  match k with
  | KVal p => num_of p
  | KInf => None
  end.

(** [x] is a flight whose price is the number [z] *)
Definition priced_at (z : Z) (x : value) : bool :=
  match field "price" x with
  | Some p =>
      match num_of p with
      | Some z' => z' =? z
      | None => false
      end
  | None => false
  end.

Definition has_numeric_price (x : value) : Prop :=
  exists z, priced_at z x = true.

Definition three_flights_two_prices : list value :=
  [ VDict [("airline", VStr "A"); ("price", VInt 300)];
    VDict [("airline", VStr "B"); ("price", VInt 200)];
    VDict [("airline", VStr "C"); ("price", VInt 300)] ].

Definition seven_options : list (string * value) :=
  [ ("best_flights",
      VList [ VDict [("price", VInt 700)]; VDict [("price", VInt 100)];
              VDict [("price", VInt 600)]; VDict [("price", VInt 200)];
              VDict [("price", VInt 500)]; VDict [("price", VInt 300)];
              VDict [("price", VInt 400)] ]);
    ("price_insights", VDict [("lowest_price", VInt 100)]) ].

Definition one_bad_option : list (string * value) :=
  [ ("best_flights", VList [VDict [("price", VInt 100)]; VStr "sold out"]) ].

Definition two_stops : list (string * value) :=
  [ ("price", VInt 250);
    ("flights", VList [VDict [("airline", VStr "A")]; VDict []; VDict []]);
    ("layovers", VList [VDict [("id", VStr "ORD")]; VDict [("duration", VInt 75)]]) ].

(** the number the sort compares a keyed flight by *)
Definition kz (kx : sort_key * value) : Z :=
  match key_num (fst kx) with
  | Some z => z
  | None => 0
  end.

Definition keyed_num (kx : sort_key * value) : Prop :=
  exists p z,
    fst kx = KVal p /\ field "price" (snd kx) = Some p /\ num_of p = Some z.

(** ** Reading a handler's world

    what [requests.get], [raise_for_status] and [json] give one after the
    other *)
Definition fetch (w : world) (url : string) (params : list (string * value))
    : result value :=
  response <- requests_get w url params 30 ;;
  _ <- raise_for_status response ;;
  json response.

(** the same world, with every response given the status [st] *)
Definition with_status (st : result unit) (w : world) : world :=
  {| getenv := getenv w;
     requests_get := fun url params timeout =>
       match requests_get w url params timeout with
       | Ok response => Ok {| raise_for_status := st; json := json response |}
       | Raise e => Raise e
       end;
     now_isoformat := now_isoformat w |}.

(** a vendor that answers with the status 429 and an explanation *)
Definition world_rate_limited : world :=
  {| getenv := fun name => if String.eqb name "SERPAPI_KEY" then Some "k3y" else None;
     requests_get := fun _ _ _ =>
       Ok {| raise_for_status :=
               Raise (RequestException "429 Client Error: Too Many Requests");
             json := Ok (VDict [("error", VStr "Your account has run out of searches.")]) |};
     now_isoformat := "2025-03-01T10:00:00" |}.

(** a vendor whose answer is not JSON *)
Definition world_not_json : world :=
  {| getenv := fun name => if String.eqb name "SERPAPI_KEY" then Some "k3y" else None;
     requests_get := fun _ _ _ =>
       Ok {| raise_for_status := Ok tt;
             json := Raise (ValueError "Expecting value: line 1 column 1 (char 0)") |};
     now_isoformat := "2025-03-01T10:00:00" |}.

Definition vendor_error_body : list (string * value) :=
  [ ("error", VStr "Invalid API key.");
    ("best_flights", VList [VDict [("price", VInt 100)]]) ].

(** * Properties *)

(** ** Decimal numerals *)

Lemma string_of_uint_digits (u : Decimal.uint) :
  str_all is_digit_char (NilEmpty.string_of_uint u) = true.
Proof.
  induction u; simpl; try rewrite IHu; reflexivity.
Qed.

Lemma span_digits_app (d r : string) :
  str_all is_digit_char d = true ->
  match r with
  | EmptyString => True
  | String a _ => is_digit_char a = false
  end ->
  span_digits (d ++ r) = (d, r).
Proof.
  intros Hd Hr. induction d as [| a d IH]; simpl in *.
  - destruct r as [| b r]; [reflexivity |].
    simpl. now rewrite Hr.
  - apply andb_true_iff in Hd. destruct Hd as [Ha Hd].
    rewrite Ha, (IH Hd). reflexivity.
Qed.

Lemma str_of_Z_pos (p : positive) :
  str_of_Z (Z.pos p) = NilEmpty.string_of_uint (Pos.to_uint p).
Proof.
  unfold str_of_Z. simpl.
  assert (H : Pos.to_uint p <> Decimal.Nil).
  { intros E. pose proof (DecimalPos.Unsigned.of_to p) as Q.
    rewrite E in Q. discriminate Q. }
  destruct (Pos.to_uint p); [congruence | reflexivity ..].
Qed.

Lemma read_number_str_of_Z (n : Z) (r : string) :
  0 <= n ->
  match r with
  | EmptyString => True
  | String a _ => is_digit_char a = false
  end ->
  read_number (str_of_Z n ++ r) = Some (n, r).
Proof.
  intros Hn Hr. destruct n as [| p | p]; [| | lia].
  - unfold read_number. change (str_of_Z 0) with "0".
    rewrite (span_digits_app "0" r eq_refl Hr). reflexivity.
  - unfold read_number. rewrite str_of_Z_pos.
    rewrite (span_digits_app _ r (string_of_uint_digits _) Hr).
    assert (H : Pos.to_uint p <> Decimal.Nil).
    { intros E. pose proof (DecimalPos.Unsigned.of_to p) as Q.
      rewrite E in Q. discriminate Q. }
    pose proof (NilZero.usu _ H) as U.
    unfold NilZero.string_of_uint in U.
    destruct (Pos.to_uint p) eqn:E; try congruence;
      rewrite U; rewrite <- E; f_equal; f_equal;
      unfold Z.of_uint; rewrite DecimalPos.Unsigned.of_to; reflexivity.
Qed.

(** ** The duration formatter *)



(** ** Strings *)

Lemma str_append_assoc (a b c : string) : (a ++ b) ++ c = a ++ (b ++ c).
Proof.
  induction a as [| x a IH]; simpl; [reflexivity | now rewrite IH].
Qed.

Lemma str_append_nil_r (a : string) : a ++ "" = a.
Proof.
  induction a as [| x a IH]; simpl; [reflexivity | now rewrite IH].
Qed.

Lemma str_contains_char (c : ascii) (s : string) :
  str_contains (String c EmptyString) s = str_has_char c s.
Proof.
  induction s as [| a s IH]; simpl; [reflexivity |].
  rewrite IH. destruct (ascii_dec c a) as [E | N].
  - subst. rewrite Ascii.eqb_refl. now destruct s.
  - destruct (Ascii.eqb_spec a c) as [E | _]; [congruence | reflexivity].
Qed.

Lemma str_replace_char_app (c : ascii) (by_ a b : string) :
  str_replace_char c by_ (a ++ b) = str_replace_char c by_ a ++ str_replace_char c by_ b.
Proof.
  induction a as [| x a IH]; simpl; [reflexivity |].
  rewrite IH. destruct (Ascii.eqb x c); simpl; [| reflexivity].
  now rewrite str_append_assoc.
Qed.

(** ** The time formatter *)

(** C5. [format_time] is a total function of its input string: the empty
    string gives ["Unknown"]; a string with a ["|"] is returned as it is;
    otherwise a string with a ["T"] is handed to the ISO-8601 parser, every
    ["Z"] (so a trailing one too) written as the UTC offset, and the parsed
    time is printed in the display format; every other string, and every
    string the parser or the printer rejects, is returned as it is. *)
Theorem format_time_total (DT : DateTimeLib) :
  (forall s : string,
     format_time (VStr s) =
       if String.eqb s "" then VStr "Unknown"
       else if str_has_char "|" s then VStr s
       else if str_has_char "T" s then
         match fromisoformat (str_replace_char "Z" "+00:00" s) with
         | Ok dt =>
             match strftime dt display_format with
             | Ok out => VStr out
             | Raise _ => VStr s
             end
         | Raise _ => VStr s
         end
       else VStr s) /\
  (forall s : string,
     str_replace_char "Z" "+00:00" (s ++ "Z")
     = str_replace_char "Z" "+00:00" s ++ "+00:00").
Proof.
  split.
  - intros s. unfold format_time, format_time_try. simpl.
    destruct (String.eqb s "") eqn:E; simpl; [reflexivity |].
    rewrite (str_contains_char "|" s).
    destruct (str_has_char "|" s); simpl; [reflexivity |].
    rewrite (str_contains_char "T" s).
    destruct (str_has_char "T" s); simpl; [| reflexivity].
    destruct (fromisoformat _) as [dt | e]; simpl; [| reflexivity].
    destruct (strftime dt display_format); reflexivity.
  - intros s. now rewrite str_replace_char_app.
Qed.

(** ** The booking-link generator *)

Lemma generic_flights_url_text (source destination departure_date : string)
    (return_date : option string) :
  generic_flights_url source destination departure_date return_date =
    "https://www.google.com/travel/flights?hl=en&curr=USD&f=0&tfs=CAEQAxoaagwIAhIIL20vMDJqNnQSCjIwMjUtMDMtMTUaGhIKMjAyNS0wMy0yMBAC&q=Flights%20from%20"
      ++ source ++ "%20to%20" ++ destination ++ "&d1=" ++ departure_date
      ++ (if given return_date then "&d2=" ++ opt_str return_date ++ "&f=1" else "").
Proof.
  unfold generic_flights_url, google_flights_base, str_join.
  destruct (given return_date); cbn [List.app String.concat];
    do 2 (repeat rewrite str_append_assoc; cbn [append]);
    rewrite ?str_append_nil_r; reflexivity.
Qed.


(** ** The normalizer: failures *)

(** C3. [process_flight_data] returns a response for every input. When a step
    of its [try] block raises [e], the response has [success] false, the
    message ["Error processing flight data: "] followed by the text of [e], no
    flights, and the query parameters as they were passed. *)
Theorem process_flight_data_catches (DT : DateTimeLib) (flight_data : value)
    (source destination departure_date : string) (return_date : option string)
    (now : string) (e : exn) :
  process_flight_data_try flight_data source destination departure_date return_date now
    = Raise e ->
  let r := process_flight_data flight_data source destination departure_date
                               return_date now in
  field "success" r = Some (VBool false) /\
  field "error" r = Some (VStr ("Error processing flight data: " ++ exn_str e)) /\
  field "flights" r = Some (VList []) /\
  field "total_flights" r = Some (VInt 0) /\
  field "search_params" r =
    Some (VDict [ ("source", VStr source);
                  ("destination", VStr destination);
                  ("departure_date", VStr departure_date);
                  ("return_date", opt_value return_date);
                  ("currency", VStr "USD") ]).
Proof.
  intros H r. subst r. unfold process_flight_data. rewrite H.
  repeat split.
Qed.

Lemma process_flight_data_catches_bad_price :
  process_flight_data_try (DT := strict_datetime) bad_price_response "JFK" "LAX"
                          "2025-03-06" None "2025-03-01T10:00:00"
    = Raise (ValueError "Unknown format code 'f' for object of type 'str'") /\
  field "success"
        (process_flight_data (DT := strict_datetime) bad_price_response "JFK" "LAX"
                             "2025-03-06" None "2025-03-01T10:00:00")
    = Some (VBool false) /\
  field "error"
        (process_flight_data (DT := strict_datetime) bad_price_response "JFK" "LAX"
                             "2025-03-06" None "2025-03-01T10:00:00")
    = Some (VStr ("Error processing flight data: "
                    ++ "Unknown format code 'f' for object of type 'str'")) /\
  field "flights"
        (process_flight_data (DT := strict_datetime) bad_price_response "JFK" "LAX"
                             "2025-03-06" None "2025-03-01T10:00:00")
    = Some (VList []).
Proof.
  assert (H : process_flight_data_try (DT := strict_datetime) bad_price_response "JFK"
                "LAX" "2025-03-06" None "2025-03-01T10:00:00"
              = Raise (ValueError "Unknown format code 'f' for object of type 'str'"))
    by reflexivity.
  split; [exact H |].
  pose proof (process_flight_data_catches strict_datetime bad_price_response "JFK" "LAX"
                "2025-03-06" None "2025-03-01T10:00:00" _ H) as (A & B & C & _).
  repeat split; assumption.
Defined.

(** ** The normalizer: which list is processed *)

(** C9. [process_flight_data] processes the primary list [best_flights] when
    it is not empty and the alternate list [other_flights] otherwise: its
    response is the one it gives when the chosen list stands for both, and the
    flights it returns are the first five of the enhanced and sorted items of
    the chosen list. When both lists are empty the response has [success]
    true, no flights, a count of zero and no [error]. *)
Theorem process_flight_data_selects (DT : DateTimeLib) (d : list (string * value))
    (source destination departure_date : string) (return_date : option string)
    (now : string) :
  let best := get_or "best_flights" (VList []) d in
  let other := get_or "other_flights" (VList []) d in
  let chosen := if truthy best then best else other in
  let r := process_flight_data (VDict d) source destination departure_date
                               return_date now in
  r = normalize_list chosen (get_or "price_insights" (VDict []) d)
                     source destination departure_date return_date now
  /\
  (forall raw flights sorted,
     py_iter chosen = Ok raw ->
     mapM (fun flight =>
             enhance_flight flight source destination departure_date return_date) raw
       = Ok flights ->
     sort_by_price flights = Ok sorted ->
     field "success" r = Some (VBool true) /\
     field "flights" r = Some (VList (firstn 5 sorted)) /\
     field "total_flights" r = Some (VInt (Z.of_nat (List.length (firstn 5 sorted)))))
  /\
  (best = VList [] -> other = VList [] ->
   field "success" r = Some (VBool true) /\
   field "flights" r = Some (VList []) /\
   field "total_flights" r = Some (VInt 0) /\
   field "error" r = None).
Proof.
  intros best other chosen r.
  assert (Hsel : forall k : value -> result value,
            (best0 <- py_get (VDict d) "best_flights" (VList []) ;;
             best_flights <-
               (if negb (truthy best0)
                then py_get (VDict d) "other_flights" (VList [])
                else Ok best0) ;;
             k best_flights) = k chosen).
  { intros k. unfold py_get.
    fold (get_or "best_flights" (VList []) d).
    fold (get_or "other_flights" (VList []) d).
    fold best. fold other. subst chosen. cbn [bind].
    destruct (truthy best); reflexivity. }
  split; [| split].
  - subst r. unfold normalize_list, process_flight_data, process_flight_data_try.
    rewrite Hsel. unfold py_get.
    fold (get_or "price_insights" (VDict []) d).
    cbn [lookup String.eqb Ascii.eqb Bool.eqb bind].
    destruct (truthy chosen) eqn:Hc; cbn [negb bind]; reflexivity.
  - intros raw flights sorted H1 H2 H3. subst r.
    unfold process_flight_data, process_flight_data_try.
    rewrite Hsel, H1. cbn [bind]. rewrite H2. cbn [bind]. rewrite H3.
    cbn [bind py_get]. repeat split.
  - intros Hb Ho. subst r.
    unfold process_flight_data, process_flight_data_try.
    rewrite Hsel. subst chosen. rewrite Hb, Ho. cbn.
    repeat split.
Qed.

Lemma process_flight_data_selects_examples :
  (exists raw flights sorted,
     py_iter (get_or "other_flights" (VList []) only_other_flights) = Ok raw /\
     mapM (fun flight => enhance_flight (DT := strict_datetime) flight "JFK" "LAX"
                                        "2025-03-06" None) raw = Ok flights /\
     sort_by_price flights = Ok sorted /\
     List.length sorted = 1%nat /\
     field "flights"
           (process_flight_data (DT := strict_datetime) (VDict only_other_flights)
                                "JFK" "LAX" "2025-03-06" None "2025-03-01T10:00:00")
       = Some (VList (firstn 5 sorted)))
  /\
  get_or "best_flights" (VList []) no_flights_at_all = VList [] /\
  get_or "other_flights" (VList []) no_flights_at_all = VList [] /\
  field "success"
        (process_flight_data (DT := strict_datetime) (VDict no_flights_at_all) "JFK" "LAX"
                             "2025-03-06" None "2025-03-01T10:00:00")
    = Some (VBool true) /\
  field "flights"
        (process_flight_data (DT := strict_datetime) (VDict no_flights_at_all) "JFK" "LAX"
                             "2025-03-06" None "2025-03-01T10:00:00")
    = Some (VList []).
Proof.
  split.
  - eexists. eexists. eexists.
    split; [reflexivity |]. split; [vm_compute; reflexivity |].
    split; [vm_compute; reflexivity |]. split; [reflexivity |].
    refine (proj1 (proj2 (proj1 (proj2
      (process_flight_data_selects strict_datetime only_other_flights "JFK" "LAX"
         "2025-03-06" None "2025-03-01T10:00:00")) _ _ _ _ _ _))).
    + reflexivity.
    + vm_compute. reflexivity.
    + vm_compute. reflexivity.
  - split; [reflexivity |]. split; [reflexivity |].
    pose proof (proj2 (proj2
      (process_flight_data_selects strict_datetime no_flights_at_all "JFK" "LAX"
         "2025-03-06" None "2025-03-01T10:00:00")) eq_refl eq_refl) as (A & B & _).
    split; assumption.
Defined.

(** ** The handlers: early returns *)

Lemma str_eqb_empty (s : string) : String.eqb s "" = false <-> s <> "".
Proof.
  destruct s; simpl; split; intros H; congruence.
Qed.

(** C7. With an empty source, destination or departure date,
    [search_flights] answers [success] false with the message about the
    missing parameters and no flights, and the trace has no request. With the
    three of them given and [SERPAPI_KEY] unset, it answers [success] false
    with the message about the key and no flights, and the trace has no
    request either. *)
Theorem search_flights_fails_fast (DT : DateTimeLib) (w : world)
    (source destination departure_date : string) (return_date : option string)
    (currency : string) (ctx : option Context) :
  (source = "" \/ destination = "" \/ departure_date = "" ->
   exists r t,
     run (search_flights w source destination departure_date return_date currency ctx)
       = (Ok r, t) /\
     field "success" r = Some (VBool false) /\
     field "error" r =
       Some (VStr "Missing required parameters: source, destination, and departure_date are required.") /\
     field "flights" r = Some (VList []) /\
     http_requests t = [])
  /\
  (source <> "" -> destination <> "" -> departure_date <> "" ->
   getenv w "SERPAPI_KEY" = None ->
   exists r t,
     run (search_flights w source destination departure_date return_date currency ctx)
       = (Ok r, t) /\
     field "success" r = Some (VBool false) /\
     field "error" r =
       Some (VStr "SerpAPI key not configured. Please set SERPAPI_KEY environment variable.") /\
     field "flights" r = Some (VList []) /\
     http_requests t = []).
Proof.
  split.
  - intros H.
    assert (E : (String.eqb source "" || String.eqb destination ""
                 || String.eqb departure_date "")%bool = true).
    { destruct H as [-> | [-> | ->]]; simpl;
        rewrite ?orb_true_r; reflexivity. }
    unfold run, search_flights, try_except, search_flights_try.
    destruct ctx as [c |]; cbn [when_ctx ctx_call emit ret io_bind List.app];
      rewrite E; cbn [when_ctx ctx_call emit ret io_bind List.app];
      eexists; eexists; repeat split.
  - intros Hs Hd Hdd Hk.
    apply str_eqb_empty in Hs, Hd, Hdd.
    unfold run, search_flights, try_except, search_flights_try.
    destruct ctx as [c |]; cbn [when_ctx ctx_call emit ret io_bind List.app];
      rewrite Hs, Hd, Hdd, Hk; cbn [orb given negb];
      cbn [when_ctx ctx_call emit ret io_bind List.app];
      eexists; eexists; repeat split.
Qed.

Lemma search_flights_fails_fast_examples :
  ("" = "" \/ "LAX" = "" \/ "2025-03-06" = "") /\
  (exists r t,
     run (search_flights (DT := strict_datetime) (world_of (Some "k3y") one_priced_flight)
                         "" "LAX" "2025-03-06" None "USD" None)
       = (Ok r, t) /\
     field "success" r = Some (VBool false) /\
     field "error" r =
       Some (VStr "Missing required parameters: source, destination, and departure_date are required.") /\
     field "flights" r = Some (VList []) /\
     http_requests t = []) /\
  getenv (world_of None one_priced_flight) "SERPAPI_KEY" = None /\
  (exists r t,
     run (search_flights (DT := strict_datetime) (world_of None one_priced_flight)
                         "JFK" "LAX" "2025-03-06" None "USD" (Some ClientContext))
       = (Ok r, t) /\
     field "success" r = Some (VBool false) /\
     field "error" r =
       Some (VStr "SerpAPI key not configured. Please set SERPAPI_KEY environment variable.") /\
     field "flights" r = Some (VList []) /\
     http_requests t = []).
Proof.
  split; [left; reflexivity |].
  split.
  - apply (proj1 (search_flights_fails_fast strict_datetime
                    (world_of (Some "k3y") one_priced_flight)
                    "" "LAX" "2025-03-06" None "USD" None)).
    left; reflexivity.
  - split; [reflexivity |].
    apply (proj2 (search_flights_fails_fast strict_datetime
                    (world_of None one_priced_flight)
                    "JFK" "LAX" "2025-03-06" None "USD" (Some ClientContext)));
      [discriminate | discriminate | discriminate | reflexivity].
Defined.

(** ** The handlers: the request of [search_airports] *)

Lemma is_alpha_char_spec (c : ascii) : is_alpha_char c = true <-> is_letter c.
Proof.
  unfold is_alpha_char, is_upper_char, is_lower_char, is_letter.
  rewrite orb_true_iff, !andb_true_iff, !Nat.leb_le. reflexivity.
Qed.

Lemma str_all_alpha_spec (s : string) :
  str_all is_alpha_char s = true <-> Forall is_letter (list_ascii_of_string s).
Proof.
  induction s as [| a s IH]; simpl.
  - split; [constructor | reflexivity].
  - rewrite andb_true_iff, IH, is_alpha_char_spec. split.
    + intros [Ha Hs]. now constructor.
    + intros H. inversion H; subst. now split.
Qed.

Lemma three_letters_spec (query : string) :
  (Nat.eqb (String.length query) 3 && str_isalpha query)%bool = true
  <-> three_letters query.
Proof.
  unfold three_letters. rewrite andb_true_iff, Nat.eqb_eq.
  split; intros [Hl Ha]; split; try assumption.
  - destruct query; [discriminate Hl |]. now apply str_all_alpha_spec.
  - destruct query; [discriminate Hl |]. now apply str_all_alpha_spec.
Qed.

Lemma search_airports_one_request (w : world) (query : string)
    (ctx : option Context) (key : string) :
  getenv w "SERPAPI_KEY" = Some key -> key <> "" ->
  http_requests (snd (run (search_airports w query ctx)))
    = [("https://serpapi.com/search", airports_request key query)].
Proof.
  intros Hk Hne. apply str_eqb_empty in Hne.
  unfold run, search_airports, try_except, search_airports_try,
    search_airports_except, http_get.
  destruct ctx as [c |];
    cbn [when_ctx ctx_call emit ret io_bind lift List.app];
    rewrite Hk; cbn [given opt_str]; rewrite Hne;
    cbn [negb when_ctx ctx_call emit ret io_bind lift List.app];
    destruct (requests_get w serpapi_url (airports_request key query) 30)
      as [resp | e];
    try destruct (raise_for_status resp) as [[] | e1];
    try destruct (json resp) as [body | e2];
    reflexivity.
Qed.



(** ** The shape of the normalizer's response *)

Lemma bind_Ok {A B : Type} (m : result A) (k : A -> result B) (b : B) :
  bind m k = Ok b -> exists a, m = Ok a /\ k a = Ok b.
Proof.
  destruct m as [a | e]; simpl; [eauto | discriminate].
Qed.

Lemma process_flight_data_try_shape (DT : DateTimeLib) (flight_data : value)
    (source destination departure_date : string) (return_date : option string)
    (now : string) (r : value) :
  process_flight_data_try flight_data source destination departure_date return_date now
    = Ok r ->
  exists sorted,
    field "success" r = Some (VBool true) /\
    field "flights" r = Some (VList (firstn 5 sorted)) /\
    field "error" r = None.
Proof.
  unfold process_flight_data_try. intros H.
  apply bind_Ok in H. destruct H as (best0 & _ & H).
  apply bind_Ok in H. destruct H as (best & _ & H).
  apply bind_Ok in H. destruct H as (raw & _ & H).
  apply bind_Ok in H. destruct H as (flights & _ & H).
  apply bind_Ok in H. destruct H as (sorted & _ & H).
  apply bind_Ok in H. destruct H as (insights & _ & H).
  injection H as <-. exists sorted. repeat split.
Qed.

Lemma process_flight_data_shape (DT : DateTimeLib) (flight_data : value)
    (source destination departure_date : string) (return_date : option string)
    (now : string) :
  let r := process_flight_data flight_data source destination departure_date
                               return_date now in
  (field "success" r = Some (VBool true) /\ field "error" r = None /\
   exists l, field "flights" r = Some (VList l))
  \/
  (field "success" r = Some (VBool false) /\
   field "flights" r = Some (VList []) /\
   exists e, field "error" r = Some (VStr ("Error processing flight data: " ++ exn_str e))).
Proof.
  intros r. subst r. unfold process_flight_data.
  destruct (process_flight_data_try _ _ _ _ _ _) as [r | e] eqn:E.
  - left. apply process_flight_data_try_shape in E.
    destruct E as (sorted & A & B & C). eauto.
  - right. repeat split. exists e. reflexivity.
Qed.

(** ** The handlers: a response without primary flights *)

(** C10. When the vendor's answer has no [error] field and its [best_flights]
    is empty or missing, [search_flights] answers [success] false with the
    "no flights found" message and no flights, after its one request. The
    answer is not the normalizer's for that response, whatever [other_flights]
    holds: the handler calls the normalizer only on a response with primary
    flights, where the normalizer does not look at the alternate list. *)
Theorem search_flights_skips_alternate (DT : DateTimeLib) (w : world)
    (source destination departure_date : string) (return_date : option string)
    (currency : string) (ctx : option Context) (key : string) (resp : response)
    (body : list (string * value)) :
  source <> "" -> destination <> "" -> departure_date <> "" ->
  getenv w "SERPAPI_KEY" = Some key -> key <> "" ->
  requests_get w "https://serpapi.com/search"
               (flights_request key source destination departure_date return_date currency)
               30 = Ok resp ->
  json resp = Ok (VDict body) ->
  lookup "error" body = None ->
  truthy (get_or "best_flights" (VList []) body) = false ->
  exists r t,
    run (search_flights w source destination departure_date return_date currency ctx)
      = (Ok r, t) /\
    r = VDict
          [ ("success", VBool false);
            ("error",
              VStr "No flights found for the specified route and dates. Please try different dates or airports.");
            ("flights", VList []);
            ("search_params",
              VDict [ ("source", VStr source);
                      ("destination", VStr destination);
                      ("departure_date", VStr departure_date);
                      ("return_date", opt_value return_date);
                      ("currency", VStr currency) ]);
            ("total_flights", VInt 0);
            ("search_timestamp", VStr (now_isoformat w)) ] /\
    List.length (http_requests t) = 1%nat /\
    r <> process_flight_data (VDict body) source destination departure_date
                             return_date (now_isoformat w).
Proof.
  intros Hs Hd Hdd Hk Hne Hget Hjson Herr Hbest.
  apply str_eqb_empty in Hs, Hd, Hdd, Hne.
  assert (Hrun : exists t,
    run (search_flights w source destination departure_date return_date currency ctx)
      = (Ok (no_flights_response w source destination departure_date return_date
                                 currency), t) /\
    List.length (http_requests t) = 1%nat).
  { unfold run, search_flights, try_except, search_flights_try, http_get.
    destruct ctx as [c |];
      cbn [when_ctx ctx_call emit ret io_bind lift List.app];
      rewrite Hs, Hd, Hdd, Hk; cbn [orb given opt_str]; rewrite Hne;
      cbn [negb when_ctx ctx_call emit ret io_bind lift List.app];
      unfold serpapi_url; rewrite Hget;
      cbn [when_ctx ctx_call emit ret io_bind lift List.app];
      rewrite Hjson;
      cbn [when_ctx ctx_call emit ret io_bind lift List.app py_contains py_get];
      rewrite Herr;
      cbn [when_ctx ctx_call emit ret io_bind lift List.app];
      fold (get_or "best_flights" (VList []) body); rewrite Hbest;
      cbn [when_ctx ctx_call emit ret io_bind lift List.app];
      eexists; split; reflexivity. }
  destruct Hrun as (t & Hrun & Hone).
  eexists. exists t. split; [exact Hrun |]. split; [reflexivity |].
  split; [exact Hone |].
  - intros E.
    destruct (process_flight_data_shape DT (VDict body) source destination
                departure_date return_date (now_isoformat w))
      as [(A & _) | (_ & _ & e & B)].
    + rewrite <- E in A. discriminate A.
    + rewrite <- E in B. discriminate B.
Qed.

Lemma search_flights_skips_alternate_example :
  (exists x, get_or "other_flights" (VList []) only_other_flights = VList [x]) /\
  (exists x,
     field "flights"
           (process_flight_data (DT := strict_datetime) (VDict only_other_flights)
                                "JFK" "LAX" "2025-03-06" None "2025-03-01T10:00:00")
       = Some (VList [x])) /\
  exists r t,
    run (search_flights (DT := strict_datetime)
           (world_of (Some "k3y") (VDict only_other_flights))
           "JFK" "LAX" "2025-03-06" None "USD" None)
      = (Ok r, t) /\
    field "success" r = Some (VBool false) /\
    field "error" r =
      Some (VStr "No flights found for the specified route and dates. Please try different dates or airports.") /\
    field "flights" r = Some (VList []) /\
    List.length (http_requests t) = 1%nat /\
    r <> process_flight_data (DT := strict_datetime) (VDict only_other_flights)
                             "JFK" "LAX" "2025-03-06" None "2025-03-01T10:00:00".
Proof.
  split; [eexists; reflexivity |].
  split; [eexists; vm_compute; reflexivity |].
  destruct (search_flights_skips_alternate strict_datetime
              (world_of (Some "k3y") (VDict only_other_flights))
              "JFK" "LAX" "2025-03-06" None "USD" None "k3y"
              (ok_response (VDict only_other_flights)) only_other_flights)
    as (r & t & Hrun & Hr & Hone & Hneq);
    try discriminate; try reflexivity.
  exists r, t. split; [exact Hrun |].
  rewrite Hr at 1 2 3. repeat split; try reflexivity; assumption.
Defined.

(** ** The handlers: the fields of a response *)

Lemma process_flight_data_fields (DT : DateTimeLib) (flight_data : value)
    (source destination departure_date : string) (return_date : option string)
    (now : string) :
  exists b,
    field "success"
          (process_flight_data flight_data source destination departure_date
                               return_date now) = Some (VBool b) /\
    has_key "flights"
            (process_flight_data flight_data source destination departure_date
                                 return_date now) = true /\
    has_key "error"
            (process_flight_data flight_data source destination departure_date
                                 return_date now) = negb b.
Proof.
  destruct (process_flight_data_shape DT flight_data source destination departure_date
              return_date now) as [(A & B & l & C) | (A & B & e & C)].
  - exists true. unfold has_key. rewrite A, B, C. repeat split.
  - exists false. unfold has_key. rewrite A, B, C. repeat split.
Qed.

Ltac run_handler :=
  cbn [when_ctx ctx_call emit ret io_bind lift List.app negb orb].

Ltac failure_response :=
  solve [eexists; eexists; exists false; repeat split].

Lemma search_flights_fields (DT : DateTimeLib) (w : world)
    (source destination departure_date : string) (return_date : option string)
    (currency : string) (ctx : option Context) :
  exists r t b,
    run (search_flights w source destination departure_date return_date currency ctx)
      = (Ok r, t) /\
    field "success" r = Some (VBool b) /\
    has_key "flights" r = true /\
    has_key "error" r = negb b.
Proof.
  pose proof (process_flight_data_fields DT) as P.
  unfold run, search_flights, try_except, search_flights_try, search_flights_except,
    http_get.
  destruct ctx as [c |]; run_handler.
  all: destruct (String.eqb source "" || String.eqb destination ""
                 || String.eqb departure_date "")%bool; run_handler;
    [failure_response |].
  all: destruct (given (getenv w "SERPAPI_KEY")); run_handler;
    [| failure_response].
  all: destruct (requests_get w serpapi_url _ 30) as [resp | e]; run_handler;
    [| failure_response].
  all: destruct (json resp) as [results | e]; run_handler;
    [| failure_response].
  all: destruct (py_contains "error" results) as [[|] | e]; run_handler;
    [ destruct (py_getitem_str results "error") as [err | e]; run_handler;
      failure_response
    | | failure_response ].
  all: destruct (py_get results "best_flights" (VList [])) as [best | e]; run_handler;
    [| failure_response].
  all: destruct (truthy best); run_handler;
    [| failure_response].
  all: destruct (P results source destination departure_date return_date
                   (now_isoformat w)) as (b & A & B & C);
    eexists; eexists; exists b; repeat split; assumption.
Qed.

Ltac passthrough_response b :=
  solve [left; eexists; eexists; exists b; repeat split].

Ltac escaped :=
  solve [right; split; [reflexivity | eexists; eexists; reflexivity]].

Lemma search_airports_fields (w : world) (query : string) (ctx : option Context) :
  (exists r t b,
     run (search_airports w query ctx) = (Ok r, t) /\
     field "success" r = Some (VBool b) /\
     has_key "error" r = negb b /\
     has_key "serpapi_response" r = b /\
     has_key "airports" r = negb b)
  \/
  (ctx = None /\ exists e t, run (search_airports w query ctx) = (Raise e, t)).
Proof.
  unfold run, search_airports, try_except, search_airports_try, search_airports_except,
    http_get.
  destruct ctx as [c |]; run_handler.
  all: destruct (given (getenv w "SERPAPI_KEY")); run_handler;
    [| passthrough_response false].
  all: destruct (requests_get w serpapi_url _ 30) as [resp | e]; run_handler;
    [| passthrough_response false || escaped].
  all: destruct (raise_for_status resp) as [[] | e]; run_handler;
    [| passthrough_response false || escaped].
  all: destruct (json resp) as [results | e]; run_handler;
    [passthrough_response true | passthrough_response false || escaped].
Qed.

Lemma get_flight_prices_fields (w : world)
    (source destination start_date end_date currency : string)
    (ctx : option Context) :
  (exists r t b,
     run (get_flight_prices w source destination start_date end_date currency ctx)
       = (Ok r, t) /\
     field "success" r = Some (VBool b) /\
     has_key "error" r = negb b /\
     has_key "serpapi_response" r = b /\
     has_key "price_trends" r = negb b)
  \/
  (ctx = None /\
   exists e t,
     run (get_flight_prices w source destination start_date end_date currency ctx)
       = (Raise e, t)).
Proof.
  unfold run, get_flight_prices, try_except, get_flight_prices_try,
    get_flight_prices_except, http_get.
  destruct ctx as [c |]; run_handler.
  all: destruct (given (getenv w "SERPAPI_KEY")); run_handler;
    [| passthrough_response false].
  all: destruct (requests_get w serpapi_url _ 30) as [resp | e]; run_handler;
    [| passthrough_response false || escaped].
  all: destruct (raise_for_status resp) as [[] | e]; run_handler;
    [| passthrough_response false || escaped].
  all: destruct (json resp) as [results | e]; run_handler;
    [passthrough_response true | passthrough_response false || escaped].
Qed.

(** C2, as the code has it. Every response has [success]. [search_flights]
    always returns a response, and it always has [flights]. [search_airports]
    and [get_flight_prices] return a response unless they were called without
    a context and a step failed; the response has [serpapi_response] exactly
    when [success] is true and the empty [airports], respectively
    [price_trends], exactly when it is false. [error] is there exactly when
    [success] is false: not on the success path. *)
Theorem handlers_response_fields (DT : DateTimeLib) (w : world) :
  (forall (source destination departure_date : string) (return_date : option string)
          (currency : string) (ctx : option Context),
     exists r t b,
       run (search_flights w source destination departure_date return_date currency ctx)
         = (Ok r, t) /\
       field "success" r = Some (VBool b) /\
       has_key "flights" r = true /\
       has_key "error" r = negb b)
  /\
  (forall (query : string) (ctx : option Context),
     (exists r t b,
        run (search_airports w query ctx) = (Ok r, t) /\
        field "success" r = Some (VBool b) /\
        has_key "error" r = negb b /\
        has_key "serpapi_response" r = b /\
        has_key "airports" r = negb b)
     \/
     (ctx = None /\ exists e t, run (search_airports w query ctx) = (Raise e, t)))
  /\
  (forall (source destination start_date end_date currency : string)
          (ctx : option Context),
     (exists r t b,
        run (get_flight_prices w source destination start_date end_date currency ctx)
          = (Ok r, t) /\
        field "success" r = Some (VBool b) /\
        has_key "error" r = negb b /\
        has_key "serpapi_response" r = b /\
        has_key "price_trends" r = negb b)
     \/
     (ctx = None /\
      exists e t,
        run (get_flight_prices w source destination start_date end_date currency ctx)
          = (Raise e, t))).
Proof.
  split; [| split].
  - intros. apply search_flights_fields.
  - intros. apply search_airports_fields.
  - intros. apply get_flight_prices_fields.
Qed.

(** C2, as it is claimed, fails on the success path of each handler: the
    response of [search_flights] has no [error], the one of [search_airports]
    has no [error], the one of [get_flight_prices] has neither [price_trends]
    nor [error]. *)
Lemma success_responses_lack_error :
  (exists r t,
     run (search_flights (DT := strict_datetime) (world_of (Some "k3y") one_priced_flight)
                         "JFK" "LAX" "2025-03-06" None "USD" None) = (Ok r, t) /\
     field "success" r = Some (VBool true) /\
     has_key "error" r = false /\
     ~ claimed_shape "flights" r)
  /\
  (exists r t,
     run (search_airports (world_of (Some "k3y") (VDict [])) "LAX" None) = (Ok r, t) /\
     field "success" r = Some (VBool true) /\
     has_key "error" r = false /\
     ~ claimed_shape "serpapi_response" r)
  /\
  (exists r t,
     run (get_flight_prices (world_of (Some "k3y") (VDict []))
                            "JFK" "LAX" "2025-03-06" "2025-03-13" "USD" None)
       = (Ok r, t) /\
     field "success" r = Some (VBool true) /\
     has_key "error" r = false /\
     has_key "price_trends" r = false /\
     ~ claimed_shape "price_trends" r).
Proof.
  split; [| split].
  - eexists. eexists. split; [vm_compute; reflexivity |].
    split; [reflexivity |]. split; [reflexivity |].
    intros (_ & _ & H). discriminate H.
  - eexists. eexists. split; [vm_compute; reflexivity |].
    split; [reflexivity |]. split; [reflexivity |].
    intros (_ & _ & H). discriminate H.
  - eexists. eexists. split; [vm_compute; reflexivity |].
    split; [reflexivity |]. split; [reflexivity |]. split; [reflexivity |].
    intros (_ & _ & H). discriminate H.
Qed.

(** ** The normalizer: order and size of the flight list *)

Lemma mapM_Forall2 {A B : Type} (f : A -> result B) (l : list A) (l' : list B) :
  mapM f l = Ok l' -> Forall2 (fun x y => f x = Ok y) l l'.
Proof.
  revert l'. induction l as [| x l IH]; simpl; intros l' H.
  - injection H as <-. constructor.
  - apply bind_Ok in H. destruct H as (y & Hy & H).
    apply bind_Ok in H. destruct H as (ys & Hys & H).
    injection H as <-. constructor; auto.
Qed.

Lemma py_lt_simple (x y : value) :
  simple_price x -> simple_price y ->
  py_lt x y = Ok true ->
  py_lt y x = Ok false.
Proof.
  intros Hx Hy H.
  destruct x as [| bx | zx | sx | lx | dx], y as [| by_ | zy | sy | ly | dy];
    simpl in *; try discriminate H.
  all: try (injection H as H; f_equal; apply Z.ltb_lt in H; apply Z.ltb_ge; lia).
  - destruct Hx as [Hx | Hx]; [now elim Hx |].
    destruct Hy as [Hy | Hy]; [now elim Hy |].
    simpl in Hx, Hy. apply negb_false_iff, String.eqb_eq in Hx, Hy. subst.
    discriminate H.
  - destruct Hx as [Hx | Hx]; [now elim Hx |].
    destruct Hy as [Hy | Hy]; [now elim Hy |].
    simpl in Hx, Hy. destruct lx; [| discriminate Hx].
    destruct ly; [| discriminate Hy]. discriminate H.
Qed.

Lemma key_lt_asym (a b : sort_key * value) :
  keyed_ok a -> keyed_ok b ->
  key_lt (fst a) (fst b) = Ok true ->
  key_le a b.
Proof.
  intros (p & Ha & _ & Hp) (q & Hb & _ & Hq) H.
  unfold key_le. rewrite Ha, Hb in *. simpl in *.
  now apply py_lt_simple.
Qed.

Lemma insert_by_key_sorted (x : sort_key * value) (l l' : list (sort_key * value)) :
  keyed_ok x -> Forall keyed_ok l -> Sorted key_le l ->
  insert_by_key x l = Ok l' ->
  Sorted key_le l' /\ Forall keyed_ok l' /\ Permutation (x :: l) l' /\
  (forall a, key_le a x -> HdRel key_le a l -> HdRel key_le a l').
Proof.
  intros Hx. revert l'. induction l as [| y l IH]; simpl; intros l' Hok Hs H.
  - injection H as <-. repeat split; auto.
  - apply bind_Ok in H. destruct H as (b & Hb & H).
    inversion Hok as [| ? ? Hy Hl]; subst.
    inversion Hs as [| ? ? Hsl Hhd]; subst.
    destruct b.
    + injection H as <-. repeat split; auto.
      constructor; auto. constructor. now apply key_lt_asym.
    + apply bind_Ok in H. destruct H as (l'' & Hins & H). injection H as <-.
      destruct (IH l'' Hl Hsl Hins) as (S1 & F1 & P1 & Hd1).
      repeat split.
      * constructor; auto.
      * constructor; auto.
      * rewrite perm_swap. now constructor.
      * intros a Hax Hhda. inversion Hhda; subst. now constructor.
Qed.

Lemma sort_keyed_sorted (todo done sorted : list (sort_key * value)) :
  Forall keyed_ok todo -> Forall keyed_ok done -> Sorted key_le done ->
  sort_keyed done todo = Ok sorted ->
  Sorted key_le sorted /\ Forall keyed_ok sorted /\
  Permutation (List.app done todo) sorted.
Proof.
  revert done. induction todo as [| x todo IH]; simpl; intros done Ht Hd Hs H.
  - injection H as <-. rewrite app_nil_r. auto.
  - apply bind_Ok in H. destruct H as (done' & Hins & H).
    inversion Ht as [| ? ? Hx Ht']; subst.
    destruct (insert_by_key_sorted x done done' Hx Hd Hs Hins) as (S1 & F1 & P1 & _).
    destruct (IH done' Ht' F1 S1 H) as (S2 & F2 & P2).
    repeat split; auto.
    rewrite <- P2. rewrite <- P1.
    rewrite <- Permutation_middle. reflexivity.
Qed.

Lemma price_le_of_key_le (a b : sort_key * value) :
  keyed_ok a -> keyed_ok b -> key_le a b -> price_le (snd a) (snd b).
Proof.
  intros (p & Ha & Hpa & _) (q & Hb & Hpb & _) H.
  unfold key_le in H. rewrite Ha, Hb in H. simpl in H.
  exists p, q. auto.
Qed.

Lemma Sorted_map_snd (l : list (sort_key * value)) :
  Forall keyed_ok l -> Sorted key_le l -> Sorted price_le (map snd l).
Proof.
  intros Hok Hs. induction Hs as [| a l Hs IH Hhd]; simpl; [constructor |].
  inversion Hok as [| ? ? Ha Hl]; subst.
  constructor; [auto |].
  destruct Hhd as [| b l Hab]; simpl; constructor.
  inversion Hl; subst. now apply price_le_of_key_le.
Qed.

Lemma Sorted_firstn {A : Type} (R : A -> A -> Prop) (n : nat) (l : list A) :
  Sorted R l -> Sorted R (firstn n l).
Proof.
  revert l. induction n as [| n IH]; intros l Hs; simpl; [constructor |].
  destruct Hs as [| a l Hs Hhd]; [constructor |].
  constructor; [auto |].
  destruct Hhd; destruct n; simpl; constructor; assumption.
Qed.

Lemma format_price_simple (price : value) (s : string) :
  format_price price = Ok s -> simple_price price.
Proof.
  unfold format_price, simple_price. destruct (truthy price) eqn:T; [| auto].
  intros H. apply bind_Ok in H. destruct H as (t & H & _). left.
  unfold format_comma_0f in H.
  destruct price; simpl in *; try discriminate.
Qed.

Lemma enhance_flight_price (DT : DateTimeLib) (flight e : value)
    (source destination departure_date : string) (return_date : option string) :
  enhance_flight flight source destination departure_date return_date = Ok e ->
  exists p, field "price" e = Some p /\ price_key e = Ok (KVal p) /\ simple_price p.
Proof.
  unfold enhance_flight. intros H.
  apply bind_Ok in H. destruct H as (airline_name & _ & H).
  apply bind_Ok in H. destruct H as (price & _ & H).
  apply bind_Ok in H. destruct H as (price_formatted & Hp & H).
  repeat (apply bind_Ok in H; destruct H as (? & _ & H)).
  injection H as <-. exists price.
  repeat split. now apply format_price_simple in Hp.
Qed.

Lemma sort_by_price_sorted (flights sorted : list value) :
  Forall (fun e => exists p, field "price" e = Some p /\ price_key e = Ok (KVal p)
                             /\ simple_price p) flights ->
  sort_by_price flights = Ok sorted ->
  Sorted price_le sorted /\ Permutation flights sorted.
Proof.
  unfold sort_by_price. intros Hf H.
  apply bind_Ok in H. destruct H as (keyed & Hk & H).
  apply bind_Ok in H. destruct H as (ks & Hs & H). injection H as <-.
  apply mapM_Forall2 in Hk.
  assert (Hok : Forall keyed_ok keyed /\ map snd keyed = flights).
  { clear Hs. induction Hk as [| x kx l kl Hx Hl IH]; [split; constructor |].
    inversion Hf as [| ? ? (p & Hp & Hkey & Hsp) Hf']; subst.
    destruct (IH Hf') as (IH1 & IH2).
    rewrite Hkey in Hx. simpl in Hx. injection Hx as <-.
    split; [constructor; [exists p; auto | auto] | simpl; now rewrite IH2]. }
  destruct Hok as (Hok & Hflights).
  destruct (sort_keyed_sorted keyed [] ks Hok (Forall_nil _) (Sorted_nil _) Hs)
    as (S1 & F1 & P1).
  split; [now apply Sorted_map_snd |].
  rewrite <- Hflights. now apply Permutation_map.
Qed.

(** The part of C1 the code keeps: a successful response has at most five
    flights, in non-decreasing order of price. *)
Lemma process_flight_data_top5_sorted (DT : DateTimeLib) (flight_data : value)
    (source destination departure_date : string) (return_date : option string)
    (now : string) (r : value) :
  process_flight_data_try flight_data source destination departure_date return_date now
    = Ok r ->
  exists l,
    field "flights" r = Some (VList l) /\
    (List.length l <= 5)%nat /\
    Sorted price_le l.
Proof.
  unfold process_flight_data_try. intros H.
  apply bind_Ok in H. destruct H as (best0 & _ & H).
  apply bind_Ok in H. destruct H as (best & _ & H).
  apply bind_Ok in H. destruct H as (raw & _ & H).
  apply bind_Ok in H. destruct H as (flights & Hen & H).
  apply bind_Ok in H. destruct H as (sorted & Hsort & H).
  apply bind_Ok in H. destruct H as (insights & _ & H).
  injection H as <-. exists (firstn 5 sorted).
  split; [reflexivity |]. split; [apply firstn_le_length |].
  apply Sorted_firstn.
  apply mapM_Forall2 in Hen.
  assert (Hf : Forall (fun e => exists p, field "price" e = Some p
                                /\ price_key e = Ok (KVal p) /\ simple_price p) flights).
  { clear Hsort. induction Hen as [| x e l l' Hx Hl IH]; constructor; auto.
    now apply enhance_flight_price in Hx. }
  now apply (sort_by_price_sorted flights sorted Hf).
Qed.

(** C1, at a response with a priced option followed by an option without a
    price: the option without a price is given the price 0 and is returned
    first, before the priced one. *)
Theorem unpriced_flight_sorts_first (DT : DateTimeLib) :
  exists a b,
    field "flights"
          (process_flight_data priced_then_unpriced "JFK" "LAX" "2025-03-06" None
                               "2025-03-01T10:00:00")
      = Some (VList [a; b]) /\
    field "type" a = Some (VStr "unpriced") /\
    field "price" a = Some (VInt 0) /\
    field "price_formatted" a = Some (VStr "Price not available") /\
    field "type" b = Some (VStr "priced") /\
    field "price" b = Some (VInt 500).
Proof.
  eexists. eexists. split; [cbv; reflexivity |]. repeat split.
Qed.

(** ** Examples *)

Example format_duration_samples :
  format_duration (VInt 360) = Ok "6h" /\
  format_duration (VInt 135) = Ok "2h 15m" /\
  format_duration (VInt 45) = Ok "45m" /\
  format_duration (VBool true) = Ok "1m" /\
  format_duration (VInt (-5)) = Ok "55m" /\
  format_duration VNone = Ok "Unknown" /\
  format_duration (VStr "90") =
    Raise (TypeError "unsupported operand type(s) for //: 'str' and 'int'").
Proof.
  repeat split.
Qed.

Example format_price_samples :
  format_price (VInt 500) = Ok "$500" /\
  format_price (VInt 1234567) = Ok "$1,234,567" /\
  format_price (VInt (-1234)) = Ok "$-1,234" /\
  format_price (VInt 0) = Ok "Price not available" /\
  format_price VNone = Ok "Price not available" /\
  format_price (VInt (2 ^ 53 + 1)) = Ok "$9,007,199,254,740,992".
Proof.
  repeat split.
Qed.

Example format_time_samples (DT : DateTimeLib) :
  format_time (VStr "") = VStr "Unknown" /\
  format_time VNone = VStr "Unknown" /\
  format_time (VStr "Mar-06, 2025 | 06:20 PM") = VStr "Mar-06, 2025 | 06:20 PM" /\
  format_time (VStr "2025-03-06 18:20") = VStr "2025-03-06 18:20" /\
  format_time (VInt 1820) = VInt 1820.
Proof.
  repeat split.
Qed.

(** the first scenario of the specification: one flight, ["$500"], ["6h"] and
    a link with the booking token *)
Example scenario_one_flight (DT : DateTimeLib) :
  exists x,
    field "flights"
          (process_flight_data scenario_response "JFK" "LAX" "2025-03-06" None
                               "2025-03-01T10:00:00") = Some (VList [x]) /\
    field "airline" x = Some (VStr "A") /\
    field "price_formatted" x = Some (VStr "$500") /\
    field "duration_formatted" x = Some (VStr "6h") /\
    field "stops" x = Some (VInt 0) /\
    field "booking_link" x = Some (VStr "https://www.google.com/travel/flights?tfs=TOK1").
Proof.
  eexists. split; [cbv; reflexivity |]. repeat split.
Qed.

(** a price that cannot be compared makes the sort fail, and the normalizer
    answers with a failure *)
Example null_price_fails (DT : DateTimeLib) :
  field "error"
        (process_flight_data
           (VDict [("best_flights",
                     VList [VDict [("price", VInt 500)]; VDict [("price", VNone)]])])
           "JFK" "LAX" "2025-03-06" None "2025-03-01T10:00:00")
  = Some (VStr "Error processing flight data: '<' not supported between instances of 'NoneType' and 'int'").
Proof.
  reflexivity.
Qed.

Example search_airports_without_context_escapes :
  fst (run (search_airports (world_offline (Some "k3y")) "LAX" None))
  = Raise (AttributeError "'NoneType' object has no attribute 'error'") /\
  exists r,
    fst (run (search_airports (world_offline (Some "k3y")) "LAX" (Some ClientContext)))
      = Ok r /\
    field "error" r = Some (VStr "API request failed: Connection refused") /\
    field "airports" r = Some (VList []).
Proof.
  split; [reflexivity |]. eexists. split; [reflexivity |]. split; reflexivity.
Qed.

(** * Further properties of the code *)

(** ** The duration formatter on any value *)



(** For a negative number of minutes the hours are dropped: the result is the
    remainder modulo 60, between 0 and 59, followed by ["m"]. *)
Theorem format_duration_negative (m : Z) :
  m < 0 ->
  format_duration (VInt m) = Ok (str_of_Z (m mod 60) ++ "m") /\
  0 <= m mod 60 < 60.
Proof.
  intros Hm.
  assert (Hr : 0 <= m mod 60 < 60) by (apply Z.mod_pos_bound; lia).
  assert (Hh : m / 60 < 0) by (apply Z.div_lt_upper_bound; lia).
  split; [| exact Hr].
  unfold format_duration, py_floordiv, py_mod. simpl.
  destruct (Z.eqb_spec m 0) as [E | _]; [lia |]. simpl.
  destruct (Z.ltb_spec 0 (m / 60)) as [H | _]; [lia |]. reflexivity.
Qed.

Lemma format_duration_negative_example :
  -5 < 0 /\
  format_duration (VInt (-5)) = Ok (str_of_Z ((-5) mod 60) ++ "m") /\
  0 <= (-5) mod 60 < 60.
Proof.
  split; [lia |]. apply (format_duration_negative (-5)). lia.
Defined.

(** ** The time formatter on any value *)

(** A value that is not a string comes back unchanged, or as ["Unknown"] when
    it counts as false: the membership tests or [replace] fail on it and the
    bare [except] returns the argument. *)
Theorem format_time_not_a_string (DT : DateTimeLib) (v : value) :
  (forall s, v <> VStr s) ->
  format_time v = if truthy v then v else VStr "Unknown".
Proof.
  intros Hv. unfold format_time, format_time_try.
  destruct v as [| b | z | s | l | d]; cbn [truthy negb].
  - reflexivity.
  - destruct b; reflexivity.
  - destruct (z =? 0); reflexivity.
  - now elim (Hv s).
  - destruct l as [| x l]; [reflexivity |].
    cbn [negb py_contains bind].
    destruct (existsb (py_eq (VStr "|")) (x :: l)); [reflexivity |].
    destruct (existsb (py_eq (VStr "T")) (x :: l)); reflexivity.
  - destruct d as [| kv d]; [reflexivity |].
    cbn [negb py_contains bind].
    destruct (lookup "|" (kv :: d)); [reflexivity |].
    destruct (lookup "T" (kv :: d)); reflexivity.
Qed.

Lemma format_time_not_a_string_example :
  (forall s, VList [VStr "T"; VInt 18] <> VStr s) /\
  format_time (DT := strict_datetime) (VList [VStr "T"; VInt 18])
  = VList [VStr "T"; VInt 18].
Proof.
  assert (H : forall s, VList [VStr "T"; VInt 18] <> VStr s) by (intros s; discriminate).
  split; [exact H |].
  exact (format_time_not_a_string strict_datetime (VList [VStr "T"; VInt 18]) H).
Defined.

Lemma str_has_char_nonempty (c : ascii) (s : string) :
  str_has_char c s = true -> String.eqb s "" = false.
Proof.
  destruct s; [discriminate | reflexivity].
Qed.

Lemma format_time_outcomes (DT : DateTimeLib) (v : value) :
  format_time v = VStr "Unknown" \/
  format_time v = v \/
  exists dt out, strftime dt display_format = Ok out /\ format_time v = VStr out.
Proof.
  unfold format_time.
  destruct (truthy v); cbn [negb]; [| now left].
  unfold format_time_try.
  destruct (py_contains "|" v) as [[|] | e]; cbn [bind]; [now right; left | | now right; left].
  destruct (py_contains "T" v) as [[|] | e]; cbn [bind]; [| now right; left ..].
  destruct (py_replace_Z v) as [iso | e]; cbn [bind]; [| now right; left].
  destruct (fromisoformat iso) as [dt | e]; cbn [bind]; [| now right; left].
  destruct (strftime dt display_format) as [out | e] eqn:E; cbn [bind];
    [| now right; left].
  right; right. eauto.
Qed.

(** When what the printer writes always has the bar the display format puts
    between date and time, formatting a formatted time changes nothing. *)
Theorem format_time_idempotent (DT : DateTimeLib) :
  (forall dt out, strftime dt display_format = Ok out -> str_has_char "|" out = true) ->
  forall v : value, format_time (format_time v) = format_time v.
Proof.
  intros Hbar v.
  destruct (format_time_outcomes DT v) as [H | [H | (dt & out & Hout & H)]].
  - rewrite H. reflexivity.
  - rewrite H. exact H.
  - rewrite H. apply Hbar in Hout.
    unfold format_time, format_time_try. cbn [truthy py_contains bind].
    rewrite (str_has_char_nonempty _ _ Hout). cbn [negb].
    rewrite str_contains_char, Hout. reflexivity.
Qed.

Lemma format_time_idempotent_example :
  (forall dt out,
     strftime (DateTimeLib := tagging_datetime) dt display_format = Ok out ->
     str_has_char "|" out = true) /\
  format_time (DT := tagging_datetime) (VStr "2025-03-06T18:20")
    = VStr "at | 2025-03-06T18:20" /\
  format_time (DT := tagging_datetime)
              (format_time (DT := tagging_datetime) (VStr "2025-03-06T18:20"))
    = format_time (DT := tagging_datetime) (VStr "2025-03-06T18:20").
Proof.
  assert (H : forall dt out,
             strftime (DateTimeLib := tagging_datetime) dt display_format = Ok out ->
             str_has_char "|" out = true).
  { intros dt out E. simpl in E. injection E as <-. reflexivity. }
  split; [exact H |]. split; [reflexivity |].
  exact (format_time_idempotent tagging_datetime H (VStr "2025-03-06T18:20")).
Defined.

(** ** The price formatter *)

Lemma commas_rev_strip (n : nat) (l : list ascii) :
  filter (fun c => negb (Ascii.eqb c ","%char)) l = l ->
  filter (fun c => negb (Ascii.eqb c ","%char)) (commas_rev n l) = l.
Proof.
  revert n. induction l as [| a l IH]; intros n H; simpl in *; [reflexivity |].
  destruct (Ascii.eqb a ","%char) eqn:E; simpl in H.
  - exfalso. assert (L : (List.length (filter (fun c => negb (Ascii.eqb c ","%char)) l)
                          <= List.length l)%nat) by apply filter_length_le.
    rewrite H in L. simpl in L. lia.
  - injection H as H.
    destruct (Nat.eqb n 3); simpl; rewrite E; simpl; f_equal; auto.
Qed.

Lemma digits_no_comma (s : string) :
  str_all is_digit_char s = true ->
  filter (fun c => negb (Ascii.eqb c ","%char)) (list_ascii_of_string s)
  = list_ascii_of_string s.
Proof.
  induction s as [| a s IH]; simpl; [reflexivity |].
  intros H. apply andb_true_iff in H. destruct H as [Ha Hs].
  destruct (Ascii.eqb_spec a ","%char) as [-> | _]; [discriminate Ha |].
  simpl. f_equal. auto.
Qed.

Lemma strip_commas_group_thousands (digits : string) :
  str_all is_digit_char digits = true ->
  strip_commas (group_thousands digits) = digits.
Proof.
  intros H. unfold strip_commas, group_thousands.
  rewrite list_ascii_of_string_of_list_ascii, filter_rev.
  rewrite commas_rev_strip.
  - rewrite rev_involutive. apply string_of_list_ascii_of_string.
  - rewrite filter_rev, (digits_no_comma _ H). reflexivity.
Qed.

Lemma int_to_float_exact (z : Z) :
  0 < z < 2 ^ 53 -> int_to_float z = Ok z.
Proof.
  intros Hz. unfold int_to_float. cbv zeta.
  rewrite (Z.abs_eq z) by lia.
  destruct (Z.eqb_spec z 0) as [E | _]; [lia |].
  assert (L : Z.log2 z < 53) by (apply Z.log2_lt_pow2; lia).
  destruct (Z.leb_spec (Z.log2 z + 1) 53) as [_ | G]; [reflexivity | lia].
Qed.

(** A price between 1 and 2^53 - 1 is printed exactly: a dollar sign and the
    digits of the amount in groups of three, from which the amount is read
    back. *)
Theorem format_price_round_trip (p : Z) :
  0 < p < 2 ^ 53 ->
  format_price (VInt p) = Ok ("$" ++ group_thousands (str_of_Z p)) /\
  read_price ("$" ++ group_thousands (str_of_Z p)) = Some p.
Proof.
  intros Hp. split.
  - unfold format_price, format_comma_0f. cbn [truthy num_of].
    destruct (Z.eqb_spec p 0) as [E | _]; [lia |]. cbn [negb bind].
    rewrite (int_to_float_exact p Hp). cbn [bind].
    destruct (Z.ltb_spec p 0) as [L | _]; [lia |].
    rewrite (Z.abs_eq p) by lia. reflexivity.
  - destruct p as [| q | q]; try lia.
    cbn [append read_price]. rewrite str_of_Z_pos.
    rewrite (strip_commas_group_thousands _ (string_of_uint_digits _)).
    assert (N : Pos.to_uint q <> Decimal.Nil).
    { intros E. pose proof (DecimalPos.Unsigned.of_to q) as Q.
      rewrite E in Q. discriminate Q. }
    pose proof (NilZero.usu _ N) as U. unfold NilZero.string_of_uint in U.
    destruct (Pos.to_uint q) eqn:E; try congruence;
      rewrite U; rewrite <- E; f_equal;
      unfold Z.of_uint; rewrite DecimalPos.Unsigned.of_to; reflexivity.
Qed.

Lemma format_price_round_trip_example :
  0 < 1234567 < 2 ^ 53 /\
  format_price (VInt 1234567) = Ok "$1,234,567" /\
  read_price "$1,234,567" = Some 1234567.
Proof.
  split; [split; reflexivity |].
  apply (format_price_round_trip 1234567). split; reflexivity.
Defined.

(** ** The booking-link generator: where a link points *)

Lemma generate_booking_link_record (record : list (string * value))
    (source destination departure_date : string) (return_date : option string) :
  generate_booking_link (VDict record) source destination departure_date return_date =
    match token_of "booking_token" record with
    | Some t => token_url t
    | None =>
        match token_of "departure_token" record with
        | Some t => token_url t
        | None => generic_flights_url source destination departure_date return_date
        end
    end.
Proof.
  unfold generate_booking_link, generate_booking_link_try, token_of, py_get,
    py_getitem_str.
  cbn [bind].
  destruct (lookup "booking_token" record) as [bt |]; cbn [bind truthy].
  - destruct (truthy bt); cbn [bind]; [reflexivity |].
    destruct (lookup "departure_token" record) as [dt |]; cbn [bind truthy];
      [destruct (truthy dt) |]; reflexivity.
  - destruct (lookup "departure_token" record) as [dt |]; cbn [bind truthy];
      [destruct (truthy dt) |]; reflexivity.
Qed.

(** Every link, for every input, is a URL of the Google Flights page: the
    airline pages and the meta-search page written after the [return] of
    Method 3 are never produced. *)
Theorem generate_booking_link_host (flight_data : value)
    (source destination departure_date : string) (return_date : option string) :
  String.prefix "https://www.google.com/travel/flights?"
    (generate_booking_link flight_data source destination departure_date return_date)
  = true.
Proof.
  destruct flight_data as [| b | z | s | l | record];
    try reflexivity.
  rewrite generate_booking_link_record.
  destruct (token_of "booking_token" record); [reflexivity |].
  destruct (token_of "departure_token" record); reflexivity.
Qed.



(** ** An enhanced flight: link and booking method *)

Lemma enhance_flight_booking (DT : DateTimeLib) (record : list (string * value))
    (source destination departure_date : string) (return_date : option string)
    (e : value) :
  enhance_flight (VDict record) source destination departure_date return_date = Ok e ->
  field "booking_link" e =
    Some (VStr (generate_booking_link (VDict record) source destination departure_date
                                      return_date)) /\
  booking_method_of e =
    Some (VStr (if truthy (get_or "departure_token" VNone record)
                then "google_travel" else "airline_website")).
Proof.
  unfold enhance_flight. intros H.
  do 17 (apply bind_Ok in H; destruct H as (? & _ & H)).
  apply bind_Ok in H. destruct H as (method_token & Hm & H).
  injection H as <-. simpl in Hm. injection Hm as <-.
  split; reflexivity.
Qed.



(** ** The normalizer: what a successful response holds *)

Lemma mapM_length {A B : Type} (f : A -> result B) (l : list A) (l' : list B) :
  mapM f l = Ok l' -> List.length l' = List.length l.
Proof.
  intros H. apply mapM_Forall2 in H.
  induction H; simpl; congruence.
Qed.

Lemma mapM_In_Raise {A B : Type} (f : A -> result B) (l : list A) (x : A) (e : exn) :
  In x l -> f x = Raise e -> exists e', mapM f l = Raise e'.
Proof.
  induction l as [| y l IH]; simpl; [intros [] |].
  intros [-> | Hin] Hx.
  - rewrite Hx. simpl. eauto.
  - destruct (f y); simpl; [| eauto].
    destruct (IH Hin Hx) as (e' & ->). simpl. eauto.
Qed.

Lemma process_flight_data_try_inv (DT : DateTimeLib) (d : list (string * value))
    (source destination departure_date : string) (return_date : option string)
    (now : string) (r : value) :
  process_flight_data_try (VDict d) source destination departure_date return_date now
    = Ok r ->
  exists raw flights sorted,
    py_iter (chosen_list d) = Ok raw /\
    mapM (fun flight =>
            enhance_flight flight source destination departure_date return_date) raw
      = Ok flights /\
    sort_by_price flights = Ok sorted /\
    r = VDict
          [ ("success", VBool true);
            ("flights", VList (firstn 5 sorted));
            ("search_params",
              search_params source destination departure_date return_date "USD");
            ("total_flights", VInt (Z.of_nat (List.length (firstn 5 sorted))));
            ("search_timestamp", VStr now);
            ("price_insights", get_or "price_insights" (VDict []) d);
            ("booking_instructions", VStr booking_instructions) ].
Proof.
  unfold process_flight_data_try, py_get.
  fold (get_or "best_flights" (VList []) d).
  fold (get_or "other_flights" (VList []) d).
  fold (get_or "price_insights" (VDict []) d).
  cbn [bind]. intros H.
  assert (Hc : (if negb (truthy (get_or "best_flights" (VList []) d))
                then Ok (get_or "other_flights" (VList []) d)
                else Ok (get_or "best_flights" (VList []) d)) = Ok (chosen_list d)).
  { unfold chosen_list. cbv zeta.
    destruct (truthy (get_or "best_flights" (VList []) d)); reflexivity. }
  rewrite Hc in H. cbn [bind] in H.
  apply bind_Ok in H. destruct H as (raw & Hraw & H).
  apply bind_Ok in H. destruct H as (flights & Hen & H).
  apply bind_Ok in H. destruct H as (sorted & Hsort & H).
  injection H as <-. exists raw, flights, sorted. repeat split; assumption.
Qed.

Lemma enhanced_prices (DT : DateTimeLib) (raw flights : list value)
    (source destination departure_date : string) (return_date : option string) :
  mapM (fun flight =>
          enhance_flight flight source destination departure_date return_date) raw
    = Ok flights ->
  Forall (fun e => exists p, field "price" e = Some p /\ price_key e = Ok (KVal p)
                             /\ simple_price p) flights.
Proof.
  intros H. apply mapM_Forall2 in H.
  induction H as [| x e l l' Hx Hl IH]; constructor; auto.
  now apply enhance_flight_price in Hx.
Qed.

(** A successful response counts what it returns: [total_flights] is the
    length of [flights], and that is the number of options of the chosen list,
    capped at five. The vendor's [price_insights] field is handed on as it is,
    or as an empty object when it is missing. *)
Theorem process_flight_data_counts (DT : DateTimeLib) (d : list (string * value))
    (source destination departure_date : string) (return_date : option string)
    (now : string) (r : value) (raw : list value) :
  process_flight_data_try (VDict d) source destination departure_date return_date now
    = Ok r ->
  py_iter (chosen_list d) = Ok raw ->
  exists l,
    field "flights" r = Some (VList l) /\
    List.length l = Nat.min 5 (List.length raw) /\
    field "total_flights" r = Some (VInt (Z.of_nat (Nat.min 5 (List.length raw)))) /\
    field "price_insights" r = Some (get_or "price_insights" (VDict []) d).
Proof.
  intros H Hraw.
  apply process_flight_data_try_inv in H.
  destruct H as (raw' & flights & sorted & Hraw' & Hen & Hsort & ->).
  rewrite Hraw in Hraw'. injection Hraw' as <-.
  pose proof (enhanced_prices DT raw flights _ _ _ _ Hen) as Hf.
  destruct (sort_by_price_sorted flights sorted Hf Hsort) as (_ & Hperm).
  assert (Hlen : List.length (firstn 5 sorted) = Nat.min 5 (List.length raw)).
  { rewrite length_firstn, <- (Permutation_length Hperm), (mapM_length _ _ _ Hen).
    reflexivity. }
  exists (firstn 5 sorted). cbn [field lookup String.eqb Ascii.eqb Bool.eqb].
  rewrite Hlen. repeat split.
Qed.

Lemma process_flight_data_counts_example :
  exists r raw l,
    process_flight_data_try (DT := strict_datetime) (VDict seven_options) "JFK" "LAX"
                            "2025-03-06" None "2025-03-01T10:00:00" = Ok r /\
    py_iter (chosen_list seven_options) = Ok raw /\
    List.length raw = 7%nat /\
    field "flights" r = Some (VList l) /\
    List.length l = 5%nat /\
    field "total_flights" r = Some (VInt 5) /\
    field "price_insights" r = Some (VDict [("lowest_price", VInt 100)]).
Proof.
  eexists. eexists.
  destruct (process_flight_data_counts strict_datetime seven_options "JFK" "LAX"
              "2025-03-06" None "2025-03-01T10:00:00" _ _ eq_refl eq_refl)
    as (l & A & B & C & D).
  exists l. split; [vm_compute; reflexivity |].
  split; [reflexivity |]. split; [reflexivity |].
  repeat split; assumption.
Defined.

(** ** The normalizer: the flights that are kept are the cheapest *)

Lemma py_lt_false_simple (x y : value) :
  simple_price x -> simple_price y ->
  py_lt x y = Ok false ->
  (exists zx zy, num_of x = Some zx /\ num_of y = Some zy /\ zy <= zx) \/
  (x = VStr "" /\ y = VStr "") \/
  (x = VList [] /\ y = VList []).
Proof.
  intros Hx Hy H.
  destruct x as [| bx | zx | sx | lx | dx], y as [| by_ | zy | sy | ly | dy];
    simpl in *; try discriminate H.
  all: try (left; injection H as H; apply Z.ltb_ge in H; eauto).
  - right; left.
    destruct Hx as [Hx | Hx]; [now elim Hx |].
    destruct Hy as [Hy | Hy]; [now elim Hy |].
    simpl in Hx, Hy. apply negb_false_iff, String.eqb_eq in Hx, Hy. now subst.
  - right; right.
    destruct Hx as [Hx | Hx]; [now elim Hx |].
    destruct Hy as [Hy | Hy]; [now elim Hy |].
    simpl in Hx, Hy. destruct lx; [| discriminate Hx].
    destruct ly; [| discriminate Hy]. now split.
Qed.

Lemma py_lt_num (x y : value) (zx zy : Z) :
  num_of x = Some zx -> num_of y = Some zy -> py_lt x y = Ok (zx <? zy).
Proof.
  intros Hx Hy.
  destruct x, y; simpl in *; try discriminate; congruence.
Qed.

Lemma key_le_trans (a b c : sort_key * value) :
  keyed_ok a -> keyed_ok b -> keyed_ok c ->
  key_le a b -> key_le b c -> key_le a c.
Proof.
  intros (p & Ha & _ & Hp) (q & Hb & _ & Hq) (s & Hc & _ & Hs).
  unfold key_le. rewrite Ha, Hb, Hc. simpl. intros H1 H2.
  apply py_lt_false_simple in H1; [| assumption ..].
  apply py_lt_false_simple in H2; [| assumption ..].
  destruct H1 as [(zq & zp & Nq & Np & L1) | [(-> & ->) | (-> & ->)]];
    destruct H2 as [(zs & zq' & Ns & Nq' & L2) | [(E1 & E2) | (E1 & E2)]];
    subst; try discriminate; try reflexivity.
  rewrite Nq in Nq'. injection Nq' as <-.
  rewrite (py_lt_num _ _ _ _ Ns Np). f_equal. apply Z.ltb_ge. lia.
Qed.

Lemma Sorted_key_le_strong (l : list (sort_key * value)) :
  Forall keyed_ok l -> Sorted key_le l -> StronglySorted key_le l.
Proof.
  intros Hok Hs. induction Hs as [| a l Hs IH Hhd]; [constructor |].
  inversion Hok as [| ? ? Ha Hl]; subst.
  specialize (IH Hl). constructor; [assumption |].
  destruct Hhd as [| b l Hab]; [constructor |].
  inversion Hl as [| ? ? Hb Hl']; subst.
  inversion IH as [| ? ? IHl Hbl]; subst.
  constructor; [assumption |].
  rewrite Forall_forall in *. intros c Hc.
  apply (key_le_trans a b c); auto.
Qed.

Lemma StronglySorted_map_snd (l : list (sort_key * value)) :
  Forall keyed_ok l -> StronglySorted key_le l -> StronglySorted price_le (map snd l).
Proof.
  intros Hok Hs. induction Hs as [| a l Hs IH Hall]; simpl; [constructor |].
  inversion Hok as [| ? ? Ha Hl]; subst.
  constructor; [auto |].
  rewrite Forall_forall in *. intros y Hy.
  apply in_map_iff in Hy. destruct Hy as (b & <- & Hb).
  apply price_le_of_key_le; auto.
Qed.

Lemma StronglySorted_app_cross {A : Type} (R : A -> A -> Prop) (l1 l2 : list A) :
  StronglySorted R (List.app l1 l2) ->
  forall a b, In a l1 -> In b l2 -> R a b.
Proof.
  induction l1 as [| x l1 IH]; simpl; intros Hs a b Ha Hb; [destruct Ha |].
  inversion Hs as [| ? ? Hs' Hall]; subst.
  destruct Ha as [-> | Ha].
  - rewrite Forall_forall in Hall. apply Hall, in_or_app. now right.
  - now apply IH.
Qed.

Lemma sort_by_price_strongly_sorted (flights sorted : list value) :
  Forall (fun e => exists p, field "price" e = Some p /\ price_key e = Ok (KVal p)
                             /\ simple_price p) flights ->
  sort_by_price flights = Ok sorted ->
  StronglySorted price_le sorted.
Proof.
  unfold sort_by_price. intros Hf H.
  apply bind_Ok in H. destruct H as (keyed & Hk & H).
  apply bind_Ok in H. destruct H as (ks & Hs & H). injection H as <-.
  apply mapM_Forall2 in Hk.
  assert (Hok : Forall keyed_ok keyed).
  { clear Hs. induction Hk as [| x kx l kl Hx Hl IH]; [constructor |].
    inversion Hf as [| ? ? (p & Hp & Hkey & Hsp) Hf']; subst.
    rewrite Hkey in Hx. simpl in Hx. injection Hx as <-.
    constructor; [exists p; auto | auto]. }
  destruct (sort_keyed_sorted keyed [] ks Hok (Forall_nil _) (Sorted_nil _) Hs)
    as (S1 & F1 & _).
  apply StronglySorted_map_snd; [assumption |].
  now apply Sorted_key_le_strong.
Qed.

(** The flights of a successful response are the first five of a
    rearrangement of all the enhanced options, and none of them is dearer than
    an option that was left out. *)
Theorem process_flight_data_keeps_cheapest (DT : DateTimeLib)
    (d : list (string * value))
    (source destination departure_date : string) (return_date : option string)
    (now : string) (r : value) :
  process_flight_data_try (VDict d) source destination departure_date return_date now
    = Ok r ->
  exists raw flights sorted,
    py_iter (chosen_list d) = Ok raw /\
    mapM (fun flight =>
            enhance_flight flight source destination departure_date return_date) raw
      = Ok flights /\
    Permutation flights sorted /\
    field "flights" r = Some (VList (firstn 5 sorted)) /\
    forall kept dropped,
      In kept (firstn 5 sorted) -> In dropped (skipn 5 sorted) ->
      price_le kept dropped.
Proof.
  intros H.
  apply process_flight_data_try_inv in H.
  destruct H as (raw & flights & sorted & Hraw & Hen & Hsort & ->).
  pose proof (enhanced_prices DT raw flights _ _ _ _ Hen) as Hf.
  destruct (sort_by_price_sorted flights sorted Hf Hsort) as (_ & Hperm).
  pose proof (sort_by_price_strongly_sorted flights sorted Hf Hsort) as Hss.
  exists raw, flights, sorted. repeat split; try assumption.
  intros kept dropped Hk Hd.
  rewrite <- (firstn_skipn 5 sorted) in Hss.
  exact (StronglySorted_app_cross price_le _ _ Hss kept dropped Hk Hd).
Qed.

Lemma process_flight_data_keeps_cheapest_example :
  exists r sorted,
    process_flight_data_try (DT := strict_datetime) (VDict seven_options) "JFK" "LAX"
                            "2025-03-06" None "2025-03-01T10:00:00" = Ok r /\
    field "flights" r = Some (VList (firstn 5 sorted)) /\
    List.length (skipn 5 sorted) = 2%nat /\
    forall kept dropped,
      In kept (firstn 5 sorted) -> In dropped (skipn 5 sorted) ->
      price_le kept dropped.
Proof.
  eexists.
  destruct (process_flight_data_keeps_cheapest strict_datetime seven_options "JFK" "LAX"
              "2025-03-06" None "2025-03-01T10:00:00" _ eq_refl)
    as (raw & flights & sorted & Hraw & Hen & Hperm & Hf & Hle).
  exists sorted. split; [vm_compute; reflexivity |].
  split; [exact Hf |]. split; [| exact Hle].
  assert (L : List.length sorted = 7%nat).
  { rewrite <- (Permutation_length Hperm), (mapM_length _ _ _ Hen).
    vm_compute in Hraw. injection Hraw as <-. reflexivity. }
  rewrite length_skipn, L. reflexivity.
Defined.

(** ** The sort keeps the vendor's order among equal prices *)

Lemma key_lt_kz (a b : sort_key * value) :
  keyed_num a -> keyed_num b -> key_lt (fst a) (fst b) = Ok (kz a <? kz b).
Proof.
  intros (p & zp & Ha & _ & Hp) (q & zq & Hb & _ & Hq).
  unfold kz. rewrite Ha, Hb. simpl. rewrite Hp, Hq.
  now apply py_lt_num.
Qed.

Lemma priced_at_kz (kx : sort_key * value) (z : Z) :
  keyed_num kx -> priced_at z (snd kx) = (kz kx =? z).
Proof.
  intros (p & zp & Ha & Hf & Hp).
  unfold priced_at, kz. rewrite Ha, Hf. simpl. now rewrite Hp.
Qed.

Lemma filter_map_snd (f : value -> bool) (l : list (sort_key * value)) :
  filter f (map snd l) = map snd (filter (fun c => f (snd c)) l).
Proof.
  induction l as [| c l IH]; simpl; [reflexivity |].
  destruct (f (snd c)); simpl; now rewrite IH.
Qed.

Lemma filter_none {A : Type} (f : A -> bool) (l : list A) :
  (forall c, In c l -> f c = false) -> filter f l = [].
Proof.
  induction l as [| a l IH]; simpl; intros H; [reflexivity |].
  rewrite (H a (or_introl eq_refl)). apply IH. intros c Hc. apply H. now right.
Qed.

Lemma insert_by_key_stable (x : sort_key * value) (l : list (sort_key * value)) :
  keyed_num x -> Forall keyed_num l ->
  StronglySorted (fun a b => kz a <= kz b) l ->
  exists l',
    insert_by_key x l = Ok l' /\
    StronglySorted (fun a b => kz a <= kz b) l' /\
    (forall c, In c l' -> c = x \/ In c l) /\
    forall z, filter (fun c => kz c =? z) l'
              = List.app (filter (fun c => kz c =? z) l) (filter (fun c => kz c =? z) [x]).
Proof.
  intros Hx. induction l as [| y l IH]; intros Hok Hs.
  - exists [x]. split; [reflexivity |]. split; [repeat constructor |].
    split; [intros c [<- | []]; now left | reflexivity].
  - inversion Hok as [| ? ? Hy Hl]; subst.
    inversion Hs as [| ? ? Hsl Hall]; subst.
    cbn [insert_by_key]. rewrite (key_lt_kz x y Hx Hy). cbn [bind].
    destruct (Z.ltb_spec (kz x) (kz y)) as [Hlt | Hge].
    + exists (x :: y :: l). split; [reflexivity |]. split; [| split].
      * constructor; [assumption |].
        constructor; [lia |].
        rewrite Forall_forall in *. intros c Hc. specialize (Hall c Hc). lia.
      * intros c [-> | Hc]; auto.
      * intros z. cbn [filter].
        destruct (Z.eqb_spec (kz x) z) as [E | N]; [| now rewrite app_nil_r].
        assert (F : filter (fun c => kz c =? z) (y :: l) = []).
        { apply filter_none. intros c [<- | Hc].
          - apply Z.eqb_neq. lia.
          - rewrite Forall_forall in Hall. specialize (Hall c Hc).
            apply Z.eqb_neq. lia. }
        cbn [filter] in F. rewrite F. reflexivity.
    + destruct (IH Hl Hsl) as (l'' & Hins & Hs'' & Hin & Hfil).
      rewrite Hins. cbn [bind]. exists (y :: l'').
      split; [reflexivity |]. split; [| split].
      * constructor; [assumption |].
        rewrite Forall_forall in *. intros c Hc.
        destruct (Hin c Hc) as [-> | Hc']; [lia | auto].
      * intros c [-> | Hc]; [right; now left |].
        destruct (Hin c Hc) as [-> | Hc']; [now left | right; now right].
      * intros z. cbn [filter]. rewrite Hfil.
        destruct (kz y =? z); reflexivity.
Qed.

Lemma sort_keyed_stable (todo done : list (sort_key * value)) :
  Forall keyed_num todo -> Forall keyed_num done ->
  StronglySorted (fun a b => kz a <= kz b) done ->
  exists sorted,
    sort_keyed done todo = Ok sorted /\
    Forall keyed_num sorted /\
    forall z, filter (fun c => kz c =? z) sorted
              = List.app (filter (fun c => kz c =? z) done)
                         (filter (fun c => kz c =? z) todo).
Proof.
  revert done. induction todo as [| x todo IH]; intros done Ht Hd Hs.
  - exists done. split; [reflexivity |]. split; [assumption |].
    intros z. now rewrite app_nil_r.
  - inversion Ht as [| ? ? Hx Ht']; subst.
    destruct (insert_by_key_stable x done Hx Hd Hs) as (done' & Hins & Hs' & Hin & Hfil).
    assert (Hd' : Forall keyed_num done').
    { rewrite Forall_forall in *. intros c Hc.
      destruct (Hin c Hc) as [-> | Hc']; auto. }
    destruct (IH done' Ht' Hd' Hs') as (sorted & Hsort & Hok & Hfil').
    exists sorted. cbn [sort_keyed]. rewrite Hins. cbn [bind].
    split; [assumption |]. split; [assumption |].
    intros z. rewrite Hfil', Hfil. cbn [filter].
    destruct (kz x =? z); rewrite <- app_assoc; reflexivity.
Qed.

Lemma numeric_price_key (x : value) :
  has_numeric_price x ->
  exists p z,
    price_key x = Ok (KVal p) /\ field "price" x = Some p /\ num_of p = Some z.
Proof.
  intros (z & H). unfold priced_at in H.
  destruct x as [| | | | | d]; simpl in *; try discriminate H.
  destruct (lookup "price" d) as [p |]; [| discriminate H].
  destruct (num_of p) as [z' |] eqn:N; [| discriminate H].
  exists p, z'. auto.
Qed.

(** When every flight has a number for a price, the sort succeeds, it only
    rearranges the flights into non-decreasing order of price, and flights of
    the same price stay in the order they had. *)
Theorem sort_by_price_stable (flights : list value) :
  Forall has_numeric_price flights ->
  exists sorted,
    sort_by_price flights = Ok sorted /\
    Permutation flights sorted /\
    Sorted price_le sorted /\
    forall z, filter (priced_at z) sorted = filter (priced_at z) flights.
Proof.
  intros Hnum.
  assert (Hk : exists keyed,
             mapM (fun x => k <- price_key x ;; Ok (k, x)) flights = Ok keyed /\
             Forall keyed_num keyed /\ map snd keyed = flights).
  { induction Hnum as [| x l Hx Hl IH].
    - exists []. repeat split. constructor.
    - destruct IH as (keyed & Hm & Hok & Hsnd).
      destruct (numeric_price_key x Hx) as (p & z & Hkey & Hf & Hn).
      exists ((KVal p, x) :: keyed). cbn [mapM]. rewrite Hkey. cbn [bind].
      rewrite Hm. cbn [bind]. split; [reflexivity |].
      split; [constructor; [exists p, z; auto | assumption] |].
      simpl. now rewrite Hsnd. }
  destruct Hk as (keyed & Hm & Hok & Hsnd).
  destruct (sort_keyed_stable keyed [] Hok (Forall_nil _) (SSorted_nil _))
    as (ks & Hsort & Hoks & Hfil).
  assert (Hrun : sort_by_price flights = Ok (map snd ks)).
  { unfold sort_by_price. rewrite Hm. cbn [bind]. rewrite Hsort. reflexivity. }
  exists (map snd ks). split; [exact Hrun |].
  assert (Hsimple : Forall (fun e => exists p, field "price" e = Some p
                                     /\ price_key e = Ok (KVal p) /\ simple_price p)
                           flights).
  { rewrite Forall_forall in *. intros x Hx.
    destruct (numeric_price_key x (Hnum x Hx)) as (p & z & Hkey & Hf & Hn).
    exists p. repeat split; auto. left. congruence. }
  destruct (sort_by_price_sorted flights (map snd ks) Hsimple Hrun) as (Hs & Hp).
  split; [exact Hp |]. split; [exact Hs |].
  intros z. rewrite <- Hsnd, !filter_map_snd. f_equal.
  rewrite (filter_ext_in (fun c => priced_at z (snd c)) (fun c => kz c =? z) ks).
  - rewrite (filter_ext_in (fun c => priced_at z (snd c)) (fun c => kz c =? z) keyed).
    + apply Hfil.
    + intros c Hc. apply priced_at_kz.
      rewrite Forall_forall in Hok. auto.
  - intros c Hc. apply priced_at_kz.
    rewrite Forall_forall in Hoks. auto.
Qed.

Lemma sort_by_price_stable_example :
  Forall has_numeric_price three_flights_two_prices /\
  exists sorted,
    sort_by_price three_flights_two_prices = Ok sorted /\
    map (field "airline") sorted
      = [Some (VStr "B"); Some (VStr "A"); Some (VStr "C")] /\
    filter (priced_at 300) sorted = filter (priced_at 300) three_flights_two_prices.
Proof.
  assert (H : Forall has_numeric_price three_flights_two_prices).
  { repeat constructor; [exists 300 | exists 200 | exists 300]; reflexivity. }
  split; [exact H |].
  destruct (sort_by_price_stable three_flights_two_prices H)
    as (sorted & Hrun & _ & _ & Hst).
  exists sorted. split; [exact Hrun |]. split; [| apply Hst].
  vm_compute in Hrun. injection Hrun as <-. reflexivity.
Defined.

(** ** The normalizer: every response *)

Lemma process_flight_data_try_eq (DT : DateTimeLib) (d : list (string * value))
    (source destination departure_date : string) (return_date : option string)
    (now : string) :
  process_flight_data_try (VDict d) source destination departure_date return_date now =
    (raw <- py_iter (chosen_list d) ;;
     flights <-
       mapM (fun flight =>
               enhance_flight flight source destination departure_date return_date) raw ;;
     sorted <- sort_by_price flights ;;
     Ok (VDict
           [ ("success", VBool true);
             ("flights", VList (firstn 5 sorted));
             ("search_params",
               search_params source destination departure_date return_date "USD");
             ("total_flights", VInt (Z.of_nat (List.length (firstn 5 sorted))));
             ("search_timestamp", VStr now);
             ("price_insights", get_or "price_insights" (VDict []) d);
             ("booking_instructions", VStr booking_instructions) ])).
Proof.
  unfold process_flight_data_try, py_get, chosen_list, get_or. cbn [bind].
  destruct (truthy match lookup "best_flights" d with
                   | Some v => v
                   | None => VList []
                   end); reflexivity.
Qed.

(** Every response of the normalizer, successful or not, echoes the query
    with the currency ["USD"], carries the timestamp it was given, and has in
    [total_flights] the length of [flights], which is at most five. *)
Theorem process_flight_data_always (DT : DateTimeLib) (flight_data : value)
    (source destination departure_date : string) (return_date : option string)
    (now : string) :
  let r := process_flight_data flight_data source destination departure_date
                               return_date now in
  field "search_params" r =
    Some (VDict [ ("source", VStr source);
                  ("destination", VStr destination);
                  ("departure_date", VStr departure_date);
                  ("return_date", opt_value return_date);
                  ("currency", VStr "USD") ]) /\
  field "search_timestamp" r = Some (VStr now) /\
  exists l,
    field "flights" r = Some (VList l) /\
    field "total_flights" r = Some (VInt (Z.of_nat (List.length l))) /\
    (List.length l <= 5)%nat.
Proof.
  intros r. subst r. unfold process_flight_data.
  destruct (process_flight_data_try flight_data source destination departure_date
              return_date now) as [r | e] eqn:E.
  - destruct flight_data as [| | | | | d]; try discriminate E.
    apply process_flight_data_try_inv in E.
    destruct E as (raw & flights & sorted & _ & _ & _ & ->).
    split; [reflexivity |]. split; [reflexivity |].
    exists (firstn 5 sorted). split; [reflexivity |]. split; [reflexivity |].
    apply firstn_le_length.
  - split; [reflexivity |]. split; [reflexivity |].
    exists []. repeat split. simpl. lia.
Qed.

(** ** The normalizer: one bad option *)

(** An option that is not an object cannot be enhanced, and an option that
    cannot be enhanced costs the whole response: the normalizer answers
    [success] false with no flights, whatever the other options are. *)
Theorem process_flight_data_one_bad_option (DT : DateTimeLib)
    (d : list (string * value))
    (source destination departure_date : string) (return_date : option string)
    (now : string) (raw : list value) (x : value) :
  py_iter (chosen_list d) = Ok raw ->
  In x raw ->
  ((forall record, x <> VDict record) \/
   exists e, enhance_flight x source destination departure_date return_date = Raise e) ->
  let r := process_flight_data (VDict d) source destination departure_date
                               return_date now in
  field "success" r = Some (VBool false) /\
  field "flights" r = Some (VList []) /\
  field "total_flights" r = Some (VInt 0).
Proof.
  intros Hraw Hin Hbad r. subst r.
  assert (Hx : exists e,
             enhance_flight x source destination departure_date return_date = Raise e).
  { destruct Hbad as [Hnd | Hx]; [| exact Hx].
    destruct x as [| b | z | s | l | record];
      try (eexists; reflexivity).
    now elim (Hnd record). }
  destruct Hx as (e & Hx).
  destruct (mapM_In_Raise
              (fun flight =>
                 enhance_flight flight source destination departure_date return_date)
              raw x e Hin Hx) as (e' & Hm).
  unfold process_flight_data.
  rewrite process_flight_data_try_eq, Hraw. cbn [bind]. rewrite Hm. cbn [bind].
  repeat split.
Qed.

Lemma process_flight_data_one_bad_option_example :
  exists raw,
    py_iter (chosen_list one_bad_option) = Ok raw /\
    In (VStr "sold out") raw /\
    (forall record, VStr "sold out" <> VDict record) /\
    field "success"
          (process_flight_data (DT := strict_datetime) (VDict one_bad_option) "JFK" "LAX"
                               "2025-03-06" None "2025-03-01T10:00:00")
      = Some (VBool false) /\
    field "flights"
          (process_flight_data (DT := strict_datetime) (VDict one_bad_option) "JFK" "LAX"
                               "2025-03-06" None "2025-03-01T10:00:00")
      = Some (VList []).
Proof.
  eexists. split; [reflexivity |].
  assert (Hin : In (VStr "sold out") [VDict [("price", VInt 100)]; VStr "sold out"])
    by (right; left; reflexivity).
  assert (Hnd : forall record, VStr "sold out" <> VDict record)
    by (intros record; discriminate).
  split; [exact Hin |]. split; [exact Hnd |].
  destruct (process_flight_data_one_bad_option strict_datetime one_bad_option "JFK" "LAX"
              "2025-03-06" None "2025-03-01T10:00:00" _ (VStr "sold out")
              eq_refl Hin (or_introl Hnd)) as (A & B & _).
  split; assumption.
Defined.

(** ** An enhanced flight: segments and stops *)

(** An enhanced flight has one segment for each segment of the raw record and
    one layover for each of its layovers, and [stops] is the number of
    layovers. *)
Theorem enhance_flight_counts (DT : DateTimeLib) (record : list (string * value))
    (source destination departure_date : string) (return_date : option string)
    (e : value) :
  enhance_flight (VDict record) source destination departure_date return_date = Ok e ->
  exists segments layovers fs ls,
    py_iter (get_or "flights" (VList []) record) = Ok segments /\
    py_iter (get_or "layovers" (VList []) record) = Ok layovers /\
    field "flights" e = Some (VList fs) /\
    List.length fs = List.length segments /\
    field "layovers" e = Some (VList ls) /\
    List.length ls = List.length layovers /\
    field "stops" e = Some (VInt (Z.of_nat (List.length layovers))).
Proof.
  unfold enhance_flight. intros H.
  do 5 (apply bind_Ok in H; destruct H as (? & _ & H)).
  apply bind_Ok in H. destruct H as (segments_raw & Hsr & H).
  apply bind_Ok in H. destruct H as (segments & Hs & H).
  apply bind_Ok in H. destruct H as (fs & Hfs & H).
  apply bind_Ok in H. destruct H as (layovers_raw & Hlr & H).
  apply bind_Ok in H. destruct H as (layovers & Hl & H).
  apply bind_Ok in H. destruct H as (ls & Hls & H).
  do 7 (apply bind_Ok in H; destruct H as (? & _ & H)).
  injection H as <-.
  simpl in Hsr, Hlr. injection Hsr as <-. injection Hlr as <-.
  exists segments, layovers, fs, ls.
  pose proof (mapM_length _ _ _ Hfs) as Lf.
  pose proof (mapM_length _ _ _ Hls) as Ll.
  cbn [field lookup String.eqb Ascii.eqb Bool.eqb]. rewrite Ll.
  repeat split; assumption.
Qed.

Lemma enhance_flight_counts_example :
  exists e fs ls,
    enhance_flight (DT := strict_datetime) (VDict two_stops) "JFK" "LAX" "2025-03-06"
                   None = Ok e /\
    field "flights" e = Some (VList fs) /\
    List.length fs = 3%nat /\
    field "layovers" e = Some (VList ls) /\
    List.length ls = 2%nat /\
    field "stops" e = Some (VInt 2).
Proof.
  eexists.
  destruct (enhance_flight_counts strict_datetime two_stops "JFK" "LAX" "2025-03-06"
              None _ eq_refl)
    as (segments & layovers & fs & ls & Hs & Hl & A & B & C & D & E).
  vm_compute in Hs. injection Hs as <-.
  vm_compute in Hl. injection Hl as <-.
  exists fs, ls. split; [vm_compute; reflexivity |].
  repeat split; assumption.
Defined.

(** ** [search_flights]: the request it sends *)

Lemma search_flights_one_request (DT : DateTimeLib) (w : world)
    (source destination departure_date : string) (return_date : option string)
    (currency : string) (ctx : option Context) (key : string) :
  source <> "" -> destination <> "" -> departure_date <> "" ->
  getenv w "SERPAPI_KEY" = Some key -> key <> "" ->
  http_requests
    (snd (run (search_flights w source destination departure_date return_date
                              currency ctx)))
  = [("https://serpapi.com/search",
      flights_request key source destination departure_date return_date currency)].
Proof.
  intros Hs Hd Hdd Hk Hne.
  apply str_eqb_empty in Hs, Hd, Hdd, Hne.
  unfold run, search_flights, try_except, search_flights_try, search_flights_except,
    http_get.
  destruct ctx as [c |]; run_handler;
    rewrite Hs, Hd, Hdd, Hk; cbn [orb given opt_str]; rewrite Hne; run_handler.
  all: destruct (requests_get w serpapi_url _ 30) as [resp | e]; run_handler;
    [| reflexivity].
  all: destruct (json resp) as [results | e]; run_handler; [| reflexivity].
  all: destruct (py_contains "error" results) as [[|] | e]; run_handler;
    [ destruct (py_getitem_str results "error") as [err | e]; run_handler;
      reflexivity
    | | reflexivity ].
  all: destruct (py_get results "best_flights" (VList [])) as [best | e]; run_handler;
    [| reflexivity].
  all: destruct (truthy best); run_handler; reflexivity.
Qed.

(** With its three parameters and the key given, [search_flights] sends one
    request, whatever the vendor answers: to the search endpoint, for the
    engine [google_flights], with the airports in upper case, the caller's
    currency, and type ["1"] with the return date when one is given, type
    ["2"] and no return date otherwise. *)
Theorem search_flights_request (DT : DateTimeLib) (w : world)
    (source destination departure_date : string) (return_date : option string)
    (currency : string) (ctx : option Context) (key : string) :
  source <> "" -> destination <> "" -> departure_date <> "" ->
  getenv w "SERPAPI_KEY" = Some key -> key <> "" ->
  exists params,
    http_requests
      (snd (run (search_flights w source destination departure_date return_date
                                currency ctx)))
      = [("https://serpapi.com/search", params)] /\
    lookup "engine" params = Some (VStr "google_flights") /\
    lookup "departure_id" params = Some (VStr (str_upper source)) /\
    lookup "arrival_id" params = Some (VStr (str_upper destination)) /\
    lookup "outbound_date" params = Some (VStr departure_date) /\
    lookup "currency" params = Some (VStr currency) /\
    lookup "api_key" params = Some (VStr key) /\
    lookup "type" params = Some (VStr (if given return_date then "1" else "2")) /\
    lookup "return_date" params =
      (if given return_date then Some (opt_value return_date) else None).
Proof.
  intros Hs Hd Hdd Hk Hne.
  exists (flights_request key source destination departure_date return_date currency).
  split; [now apply search_flights_one_request |].
  unfold flights_request.
  destruct return_date as [rd |]; cbn [given];
    [destruct (String.eqb rd "") |]; repeat split.
Qed.

Lemma search_flights_request_example :
  exists params,
    http_requests
      (snd (run (search_flights (DT := strict_datetime) (world_offline (Some "k3y"))
                                "bom" "del" "2025-04-01" (Some "2025-04-09") "INR"
                                None)))
      = [("https://serpapi.com/search", params)] /\
    lookup "departure_id" params = Some (VStr "BOM") /\
    lookup "arrival_id" params = Some (VStr "DEL") /\
    lookup "currency" params = Some (VStr "INR") /\
    lookup "type" params = Some (VStr "1") /\
    lookup "return_date" params = Some (VStr "2025-04-09").
Proof.
  destruct (search_flights_request strict_datetime (world_offline (Some "k3y"))
              "bom" "del" "2025-04-01" (Some "2025-04-09") "INR" None "k3y")
    as (params & H & _ & A & B & _ & C & _ & D & E);
    try discriminate; try reflexivity.
  exists params. repeat split; assumption.
Defined.

(** ** [search_flights]: the HTTP status *)

(** [search_flights] does not look at the HTTP status of the answer: with
    every response given another status, it sends the same request and returns
    the same response. *)
Theorem search_flights_ignores_status (DT : DateTimeLib) (w : world)
    (st : result unit)
    (source destination departure_date : string) (return_date : option string)
    (currency : string) (ctx : option Context) :
  run (search_flights (with_status st w) source destination departure_date
                      return_date currency ctx)
  = run (search_flights w source destination departure_date return_date currency ctx).
Proof.
  unfold run, search_flights, try_except, search_flights_try, search_flights_except,
    http_get, with_status.
  cbn [getenv requests_get now_isoformat].
  destruct ctx as [c |]; run_handler.
  all: destruct (String.eqb source "" || String.eqb destination ""
                 || String.eqb departure_date "")%bool; run_handler;
    [reflexivity |].
  all: destruct (given (getenv w "SERPAPI_KEY")); run_handler; [| reflexivity].
  all: destruct (requests_get w serpapi_url _ 30) as [resp | e]; run_handler;
    [| reflexivity].
  all: cbn [json]; reflexivity.
Qed.

(** ** [search_flights]: what it answers after the request *)

Lemma process_flight_data_search_params (DT : DateTimeLib) (flight_data : value)
    (source destination departure_date : string) (return_date : option string)
    (now : string) :
  field "search_params"
        (process_flight_data flight_data source destination departure_date
                             return_date now)
  = Some (search_params source destination departure_date return_date "USD").
Proof.
  unfold process_flight_data.
  destruct (process_flight_data_try flight_data source destination departure_date
              return_date now) as [r | e] eqn:E; [| reflexivity].
  destruct flight_data as [| | | | | d]; try discriminate E.
  apply process_flight_data_try_inv in E.
  destruct E as (raw & flights & sorted & _ & _ & _ & ->). reflexivity.
Qed.

Ltac enter_search_flights Hs Hd Hdd Hk Hne :=
  apply str_eqb_empty in Hs, Hd, Hdd, Hne;
  unfold run, search_flights, try_except, search_flights_try, search_flights_except,
    http_get;
  run_handler;
  rewrite Hs, Hd, Hdd, Hk; cbn [orb given opt_str]; rewrite Hne; run_handler;
  unfold serpapi_url.

(** When the vendor's answer is an object without an [error] field and with
    primary flights, the response of [search_flights] is the normalizer's
    response for that answer. Its echoed currency is therefore ["USD"], also
    when the request was sent with another currency. *)
Theorem search_flights_delegates (DT : DateTimeLib) (w : world)
    (source destination departure_date : string) (return_date : option string)
    (currency : string) (ctx : option Context) (key : string) (resp : response)
    (body : list (string * value)) :
  source <> "" -> destination <> "" -> departure_date <> "" ->
  getenv w "SERPAPI_KEY" = Some key -> key <> "" ->
  requests_get w "https://serpapi.com/search"
               (flights_request key source destination departure_date return_date currency)
               30 = Ok resp ->
  json resp = Ok (VDict body) ->
  lookup "error" body = None ->
  truthy (get_or "best_flights" (VList []) body) = true ->
  let r := process_flight_data (VDict body) source destination departure_date
                               return_date (now_isoformat w) in
  fst (run (search_flights w source destination departure_date return_date currency ctx))
    = Ok r /\
  field "search_params" r =
    Some (VDict [ ("source", VStr source);
                  ("destination", VStr destination);
                  ("departure_date", VStr departure_date);
                  ("return_date", opt_value return_date);
                  ("currency", VStr "USD") ]).
Proof.
  intros Hs Hd Hdd Hk Hne Hget Hjson Herr Hbest r. subst r.
  split; [| apply process_flight_data_search_params].
  destruct ctx as [c |]; enter_search_flights Hs Hd Hdd Hk Hne;
    rewrite Hget; run_handler; rewrite Hjson; run_handler;
    cbn [py_contains py_get]; rewrite Herr; run_handler;
    fold (get_or "best_flights" (VList []) body); rewrite Hbest; reflexivity.
Qed.

Lemma search_flights_delegates_example :
  exists r x,
    fst (run (search_flights (DT := strict_datetime)
                (world_of (Some "k3y") one_priced_flight)
                "JFK" "LAX" "2025-03-06" None "EUR" None)) = Ok r /\
    field "flights" r = Some (VList [x]) /\
    field "price_formatted" x = Some (VStr "$100") /\
    field "search_params" r =
      Some (VDict [ ("source", VStr "JFK");
                    ("destination", VStr "LAX");
                    ("departure_date", VStr "2025-03-06");
                    ("return_date", VNone);
                    ("currency", VStr "USD") ]).
Proof.
  destruct (search_flights_delegates strict_datetime
              (world_of (Some "k3y") one_priced_flight)
              "JFK" "LAX" "2025-03-06" None "EUR" None "k3y"
              (ok_response one_priced_flight)
              [("best_flights", VList [VDict [("price", VInt 100)]])])
    as (Hrun & Hp); try discriminate; try reflexivity.
  eexists. eexists. split; [exact Hrun |].
  split; [vm_compute; reflexivity |]. split; [reflexivity | exact Hp].
Defined.

(** When the vendor's answer is an object with an [error] field,
    [search_flights] answers [success] false with the vendor's message behind
    ["SerpAPI error: "] and no flights, whatever else the answer holds. *)
Theorem search_flights_vendor_error (DT : DateTimeLib) (w : world)
    (source destination departure_date : string) (return_date : option string)
    (currency : string) (ctx : option Context) (key : string) (resp : response)
    (body : list (string * value)) (err : value) :
  source <> "" -> destination <> "" -> departure_date <> "" ->
  getenv w "SERPAPI_KEY" = Some key -> key <> "" ->
  requests_get w "https://serpapi.com/search"
               (flights_request key source destination departure_date return_date currency)
               30 = Ok resp ->
  json resp = Ok (VDict body) ->
  lookup "error" body = Some err ->
  fst (run (search_flights w source destination departure_date return_date currency ctx))
  = Ok (VDict [ ("success", VBool false);
                ("error", VStr ("SerpAPI error: " ++ py_str err));
                ("flights", VList []) ]).
Proof.
  intros Hs Hd Hdd Hk Hne Hget Hjson Herr.
  destruct ctx as [c |]; enter_search_flights Hs Hd Hdd Hk Hne;
    rewrite Hget; run_handler; rewrite Hjson; run_handler;
    cbn [py_contains py_getitem_str]; rewrite Herr; run_handler; reflexivity.
Qed.

Lemma search_flights_vendor_error_example :
  lookup "error" vendor_error_body = Some (VStr "Invalid API key.") /\
  fst (run (search_flights (DT := strict_datetime)
              (world_of (Some "k3y") (VDict vendor_error_body))
              "JFK" "LAX" "2025-03-06" None "USD" (Some ClientContext)))
  = Ok (VDict [ ("success", VBool false);
                ("error", VStr "SerpAPI error: Invalid API key.");
                ("flights", VList []) ]).
Proof.
  split; [reflexivity |].
  apply (search_flights_vendor_error strict_datetime
           (world_of (Some "k3y") (VDict vendor_error_body))
           "JFK" "LAX" "2025-03-06" None "USD" (Some ClientContext) "k3y"
           (ok_response (VDict vendor_error_body)) vendor_error_body
           (VStr "Invalid API key."));
    try discriminate; reflexivity.
Defined.

(** When the request itself fails, or the answer cannot be decoded,
    [search_flights] answers [success] false with no flights and the query,
    currency included, as it was called; the message starts with
    ["API request failed: "] for an exception of the HTTP client and with
    ["Error searching flights: "] for any other. *)
Theorem search_flights_transport_failure (DT : DateTimeLib) (w : world)
    (source destination departure_date : string) (return_date : option string)
    (currency : string) (ctx : option Context) (key : string) (e : exn) :
  source <> "" -> destination <> "" -> departure_date <> "" ->
  getenv w "SERPAPI_KEY" = Some key -> key <> "" ->
  (response <-
     requests_get w "https://serpapi.com/search"
                  (flights_request key source destination departure_date return_date
                                   currency) 30 ;;
   json response) = Raise e ->
  fst (run (search_flights w source destination departure_date return_date currency ctx))
  = Ok (VDict [ ("success", VBool false);
                ("error",
                  VStr ((if is_request_exception e then "API request failed: "
                         else "Error searching flights: ") ++ exn_str e));
                ("flights", VList []);
                ("search_params",
                  VDict [ ("source", VStr source);
                          ("destination", VStr destination);
                          ("departure_date", VStr departure_date);
                          ("return_date", opt_value return_date);
                          ("currency", VStr currency) ]) ]).
Proof.
  intros Hs Hd Hdd Hk Hne Hfail.
  destruct ctx as [c |]; enter_search_flights Hs Hd Hdd Hk Hne;
    (destruct (requests_get w _ _ 30) as [resp | e0]; cbn [bind] in Hfail;
     [ run_handler; rewrite Hfail; run_handler; reflexivity
     | injection Hfail as ->; run_handler; reflexivity ]).
Qed.

Lemma search_flights_transport_failure_examples :
  fst (run (search_flights (DT := strict_datetime) (world_offline (Some "k3y"))
                           "JFK" "LAX" "2025-03-06" None "EUR" None))
  = Ok (VDict [ ("success", VBool false);
                ("error", VStr "API request failed: Connection refused");
                ("flights", VList []);
                ("search_params",
                  VDict [ ("source", VStr "JFK");
                          ("destination", VStr "LAX");
                          ("departure_date", VStr "2025-03-06");
                          ("return_date", VNone);
                          ("currency", VStr "EUR") ]) ])
  /\
  fst (run (search_flights (DT := strict_datetime) world_not_json
                           "JFK" "LAX" "2025-03-06" None "EUR" None))
  = Ok (VDict [ ("success", VBool false);
                ("error",
                  VStr "Error searching flights: Expecting value: line 1 column 1 (char 0)");
                ("flights", VList []);
                ("search_params",
                  VDict [ ("source", VStr "JFK");
                          ("destination", VStr "LAX");
                          ("departure_date", VStr "2025-03-06");
                          ("return_date", VNone);
                          ("currency", VStr "EUR") ]) ]).
Proof.
  split.
  - apply (search_flights_transport_failure strict_datetime (world_offline (Some "k3y"))
             "JFK" "LAX" "2025-03-06" None "EUR" None "k3y"
             (RequestException "Connection refused"));
      try discriminate; reflexivity.
  - apply (search_flights_transport_failure strict_datetime world_not_json
             "JFK" "LAX" "2025-03-06" None "EUR" None "k3y"
             (ValueError "Expecting value: line 1 column 1 (char 0)"));
      try discriminate; reflexivity.
Defined.

(** When the vendor's answer is JSON but not an object, [search_flights]
    answers [success] false with a message that starts with
    ["Error searching flights: "] and no flights. *)
Theorem search_flights_body_not_object (DT : DateTimeLib) (w : world)
    (source destination departure_date : string) (return_date : option string)
    (currency : string) (ctx : option Context) (key : string) (resp : response)
    (body : value) :
  source <> "" -> destination <> "" -> departure_date <> "" ->
  getenv w "SERPAPI_KEY" = Some key -> key <> "" ->
  requests_get w "https://serpapi.com/search"
               (flights_request key source destination departure_date return_date currency)
               30 = Ok resp ->
  json resp = Ok body ->
  (forall d, body <> VDict d) ->
  exists r msg,
    fst (run (search_flights w source destination departure_date return_date currency
                             ctx)) = Ok r /\
    field "success" r = Some (VBool false) /\
    field "error" r = Some (VStr ("Error searching flights: " ++ msg)) /\
    field "flights" r = Some (VList []).
Proof.
  intros Hs Hd Hdd Hk Hne Hget Hjson Hnd.
  destruct ctx as [c |]; enter_search_flights Hs Hd Hdd Hk Hne;
    rewrite Hget; run_handler; rewrite Hjson; run_handler;
    (destruct body as [| b | z | s | l | d]; [| | | | | now elim (Hnd d)]);
    cbn [py_contains]; run_handler;
    try (eexists; eexists; repeat split; fail);
    match goal with
    | |- context [if ?b then _ else _] =>
        destruct b; cbn [py_getitem_str py_get]; run_handler;
        eexists; eexists; repeat split
    end.
Qed.

Lemma search_flights_body_not_object_example :
  (forall d, VList [VStr "error"] <> VDict d) /\
  exists r,
    fst (run (search_flights (DT := strict_datetime)
                (world_of (Some "k3y") (VList [VStr "error"]))
                "JFK" "LAX" "2025-03-06" None "USD" None)) = Ok r /\
    field "success" r = Some (VBool false) /\
    field "error" r =
      Some (VStr "Error searching flights: list indices must be integers or slices, not str") /\
    field "flights" r = Some (VList []).
Proof.
  assert (H : forall d, VList [VStr "error"] <> VDict d) by (intros d; discriminate).
  split; [exact H |].
  destruct (search_flights_body_not_object strict_datetime
              (world_of (Some "k3y") (VList [VStr "error"]))
              "JFK" "LAX" "2025-03-06" None "USD" None "k3y"
              (ok_response (VList [VStr "error"])) (VList [VStr "error"]))
    as (r & msg & Hrun & A & B & C); try discriminate; try reflexivity.
  exists r. split; [exact Hrun |]. split; [exact A |]. split; [| exact C].
  vm_compute in Hrun. injection Hrun as <-. reflexivity.
Defined.

(** ** The pass-through handlers *)

Ltac enter_passthrough Hk Hne :=
  apply str_eqb_empty in Hne;
  unfold run, search_airports, get_flight_prices, try_except, search_airports_try,
    search_airports_except, get_flight_prices_try, get_flight_prices_except, http_get,
    fetch;
  run_handler;
  rewrite Hk; cbn [given opt_str]; rewrite Hne; run_handler;
  unfold serpapi_url.

(** With the key given, [search_airports] depends on the vendor in one way
    only. When the request, the status check and the decoding all succeed, it
    answers [success] true with the decoded body, whatever it is, under
    [serpapi_response]. When one of them raises [e] and the handler has a
    context, it answers [success] false with the text of [e] and the empty
    [airports]; without a context the unguarded [ctx.error] raises an
    [AttributeError] in place of a response. *)
Theorem search_airports_outcomes (w : world) (query : string) (key : string) :
  getenv w "SERPAPI_KEY" = Some key -> key <> "" ->
  (forall body ctx,
     fetch w "https://serpapi.com/search" (airports_request key query) = Ok body ->
     fst (run (search_airports w query ctx))
     = Ok (VDict [ ("success", VBool true);
                   ("serpapi_response", body);
                   ("query", VStr query);
                   ("search_timestamp", VStr (now_isoformat w)) ]))
  /\
  (forall e,
     fetch w "https://serpapi.com/search" (airports_request key query) = Raise e ->
     fst (run (search_airports w query (Some ClientContext)))
     = Ok (VDict [ ("success", VBool false);
                   ("error",
                     VStr ((if is_request_exception e then "API request failed: "
                            else "Error searching airports: ") ++ exn_str e));
                   ("airports", VList []);
                   ("query", VStr query) ]) /\
     fst (run (search_airports w query None))
     = Raise (AttributeError "'NoneType' object has no attribute 'error'")).
Proof.
  intros Hk Hne. split.
  - intros body ctx Hf.
    destruct ctx as [c |]; enter_passthrough Hk Hne;
      unfold fetch in Hf;
      (destruct (requests_get w _ _ 30) as [resp | e0]; cbn [bind] in Hf;
       [| discriminate Hf]);
      (destruct (raise_for_status resp) as [[] | e1]; cbn [bind] in Hf;
       [| discriminate Hf]);
      run_handler; rewrite Hf; reflexivity.
  - intros e Hf. unfold fetch in Hf.
    split; enter_passthrough Hk Hne;
      (destruct (requests_get w _ _ 30) as [resp | e0]; cbn [bind] in Hf;
       [| injection Hf as ->; reflexivity]);
      (destruct (raise_for_status resp) as [[] | e1]; cbn [bind] in Hf;
       [| injection Hf as ->; reflexivity]);
      run_handler; rewrite Hf; reflexivity.
Qed.

Lemma search_airports_outcomes_examples :
  fst (run (search_airports
              (world_of (Some "k3y") (VDict [("error", VStr "Invalid API key.")]))
              "LAX" None))
  = Ok (VDict [ ("success", VBool true);
                ("serpapi_response", VDict [("error", VStr "Invalid API key.")]);
                ("query", VStr "LAX");
                ("search_timestamp", VStr "2025-03-01T10:00:00") ])
  /\
  fst (run (search_airports world_rate_limited "LAX" (Some ClientContext)))
  = Ok (VDict [ ("success", VBool false);
                ("error",
                  VStr "API request failed: 429 Client Error: Too Many Requests");
                ("airports", VList []);
                ("query", VStr "LAX") ])
  /\
  fst (run (search_airports world_rate_limited "LAX" None))
  = Raise (AttributeError "'NoneType' object has no attribute 'error'").
Proof.
  split.
  - apply (proj1 (search_airports_outcomes
                    (world_of (Some "k3y") (VDict [("error", VStr "Invalid API key.")]))
                    "LAX" "k3y" eq_refl ltac:(discriminate)));
      reflexivity.
  - apply (proj2 (search_airports_outcomes world_rate_limited "LAX" "k3y" eq_refl
                    ltac:(discriminate))
                 (RequestException "429 Client Error: Too Many Requests")).
    reflexivity.
Defined.

(** [get_flight_prices] behaves in the same way: the decoded body under
    [serpapi_response] when request, status check and decoding succeed; with
    a context, a failure response with the empty [price_trends] and the query
    when one of them raises; without a context, an [AttributeError]. The
    request is the round trip from [start_date] to [end_date]. *)
Theorem get_flight_prices_outcomes (w : world)
    (source destination start_date end_date currency : string) (key : string) :
  getenv w "SERPAPI_KEY" = Some key -> key <> "" ->
  let params :=
    [ ("engine", VStr "google_flights");
      ("departure_id", VStr (str_upper source));
      ("arrival_id", VStr (str_upper destination));
      ("outbound_date", VStr start_date);
      ("return_date", VStr end_date);
      ("currency", VStr currency);
      ("hl", VStr "en");
      ("api_key", VStr key) ] in
  let echo :=
    VDict [ ("source", VStr source);
            ("destination", VStr destination);
            ("start_date", VStr start_date);
            ("end_date", VStr end_date);
            ("currency", VStr currency) ] in
  (forall ctx,
     http_requests
       (snd (run (get_flight_prices w source destination start_date end_date currency
                                    ctx)))
     = [("https://serpapi.com/search", params)])
  /\
  (forall body ctx,
     fetch w "https://serpapi.com/search" params = Ok body ->
     fst (run (get_flight_prices w source destination start_date end_date currency ctx))
     = Ok (VDict [ ("success", VBool true);
                   ("serpapi_response", body);
                   ("search_params", echo);
                   ("search_timestamp", VStr (now_isoformat w)) ]))
  /\
  (forall e,
     fetch w "https://serpapi.com/search" params = Raise e ->
     fst (run (get_flight_prices w source destination start_date end_date currency
                                 (Some ClientContext)))
     = Ok (VDict [ ("success", VBool false);
                   ("error",
                     VStr ((if is_request_exception e then "API request failed: "
                            else "Error getting flight prices: ") ++ exn_str e));
                   ("price_trends", VList []);
                   ("search_params", echo) ]) /\
     fst (run (get_flight_prices w source destination start_date end_date currency None))
     = Raise (AttributeError "'NoneType' object has no attribute 'error'")).
Proof.
  intros Hk Hne params echo. subst params echo.
  change [ ("engine", VStr "google_flights");
           ("departure_id", VStr (str_upper source));
           ("arrival_id", VStr (str_upper destination));
           ("outbound_date", VStr start_date);
           ("return_date", VStr end_date);
           ("currency", VStr currency);
           ("hl", VStr "en");
           ("api_key", VStr key) ]
    with (prices_request key source destination start_date end_date currency).
  split; [| split].
  - intros ctx.
    destruct ctx as [c |]; enter_passthrough Hk Hne;
      (destruct (requests_get w _ _ 30) as [resp | e0]; run_handler;
       [| reflexivity]);
      (destruct (raise_for_status resp) as [[] | e1]; run_handler;
       [| reflexivity]);
      destruct (json resp); reflexivity.
  - intros body ctx Hf.
    destruct ctx as [c |]; enter_passthrough Hk Hne;
      unfold fetch in Hf;
      (destruct (requests_get w _ _ 30) as [resp | e0]; cbn [bind] in Hf;
       [| discriminate Hf]);
      (destruct (raise_for_status resp) as [[] | e1]; cbn [bind] in Hf;
       [| discriminate Hf]);
      run_handler; rewrite Hf; reflexivity.
  - intros e Hf. unfold fetch in Hf.
    split; enter_passthrough Hk Hne;
      (destruct (requests_get w _ _ 30) as [resp | e0]; cbn [bind] in Hf;
       [| injection Hf as ->; reflexivity]);
      (destruct (raise_for_status resp) as [[] | e1]; cbn [bind] in Hf;
       [| injection Hf as ->; reflexivity]);
      run_handler; rewrite Hf; reflexivity.
Qed.

Lemma get_flight_prices_outcomes_examples :
  fst (run (get_flight_prices (world_of (Some "k3y") (VDict [("price_insights", VDict [])]))
                              "jfk" "lax" "2025-03-06" "2025-03-13" "USD" None))
  = Ok (VDict [ ("success", VBool true);
                ("serpapi_response", VDict [("price_insights", VDict [])]);
                ("search_params",
                  VDict [ ("source", VStr "jfk");
                          ("destination", VStr "lax");
                          ("start_date", VStr "2025-03-06");
                          ("end_date", VStr "2025-03-13");
                          ("currency", VStr "USD") ]);
                ("search_timestamp", VStr "2025-03-01T10:00:00") ])
  /\
  fst (run (get_flight_prices world_not_json
                              "jfk" "lax" "2025-03-06" "2025-03-13" "USD" None))
  = Raise (AttributeError "'NoneType' object has no attribute 'error'").
Proof.
  split.
  - apply (proj1 (proj2 (get_flight_prices_outcomes
                           (world_of (Some "k3y") (VDict [("price_insights", VDict [])]))
                           "jfk" "lax" "2025-03-06" "2025-03-13" "USD" "k3y" eq_refl
                           ltac:(discriminate))));
      reflexivity.
  - apply (proj2 (proj2 (get_flight_prices_outcomes world_not_json
                           "jfk" "lax" "2025-03-06" "2025-03-13" "USD" "k3y" eq_refl
                           ltac:(discriminate)))
                 (ValueError "Expecting value: line 1 column 1 (char 0)")).
    reflexivity.
Defined.

(** Without a usable key, unset or empty, [search_airports] and
    [get_flight_prices] answer [success] false with the message about the key
    and an empty result list, and send no request. *)
Theorem passthrough_handlers_need_key (w : world) (ctx : option Context) :
  given (getenv w "SERPAPI_KEY") = false ->
  (forall query,
     exists t,
       run (search_airports w query ctx)
       = (Ok (VDict [ ("success", VBool false);
                      ("error",
                        VStr "SerpAPI key not configured. Please set SERPAPI_KEY environment variable.");
                      ("airports", VList []) ]), t) /\
       http_requests t = [])
  /\
  (forall source destination start_date end_date currency,
     exists t,
       run (get_flight_prices w source destination start_date end_date currency ctx)
       = (Ok (VDict [ ("success", VBool false);
                      ("error",
                        VStr "SerpAPI key not configured. Please set SERPAPI_KEY environment variable.");
                      ("price_trends", VList []) ]), t) /\
       http_requests t = []).
Proof.
  intros Hk. split; intros;
    unfold run, search_airports, get_flight_prices, try_except, search_airports_try,
      get_flight_prices_try;
    destruct ctx as [c |]; run_handler; rewrite Hk; run_handler;
    eexists; split; reflexivity.
Qed.

Lemma passthrough_handlers_need_key_example :
  given (getenv (world_of (Some "") (VDict [])) "SERPAPI_KEY") = false /\
  exists t,
    run (search_airports (world_of (Some "") (VDict [])) "LAX" None)
    = (Ok (VDict [ ("success", VBool false);
                   ("error",
                     VStr "SerpAPI key not configured. Please set SERPAPI_KEY environment variable.");
                   ("airports", VList []) ]), t) /\
    http_requests t = [].
Proof.
  split; [reflexivity |].
  apply (proj1 (passthrough_handlers_need_key (world_of (Some "") (VDict [])) None
                  eq_refl) "LAX").
Defined.

(** ** Upper case *)

Lemma upper_char_upper (a : ascii) :
  is_alpha_char a = true -> is_upper_char (upper_char a) = true.
Proof.
  destruct a as [b0 b1 b2 b3 b4 b5 b6 b7].
  destruct b0, b1, b2, b3, b4, b5, b6, b7; intros H;
    first [discriminate H | reflexivity].
Qed.

Lemma upper_char_idempotent (a : ascii) : upper_char (upper_char a) = upper_char a.
Proof.
  destruct a as [b0 b1 b2 b3 b4 b5 b6 b7].
  destruct b0, b1, b2, b3, b4, b5, b6, b7; reflexivity.
Qed.

Lemma str_all_upper_alpha (t : string) :
  str_all is_upper_char t = true -> str_all is_alpha_char t = true.
Proof.
  induction t as [| b t IH]; simpl; [reflexivity |].
  intros H. apply andb_true_iff in H. destruct H as [Hb Ht].
  unfold is_alpha_char at 1. rewrite Hb. simpl. auto.
Qed.


